(** * The XGBoost hyperparameter search of sleep_analysis

    A shallow embedding of
    [sleep_analysis/classification/ml_algorithms/xgboost_classifier.py]:
    the classes [XGBPipeline] and [XGBOptuna], over an explicit store of
    Python objects and an explicit persisted study log.

    Python floats are idealised as rationals ([Q]); Python dictionaries
    are finite maps ([gmap string _]); Python objects live in a store
    indexed by allocation order, so that aliasing and in-place mutation
    are visible. *)

From Stdlib Require Import ZArith QArith Ascii.
From stdpp Require Import base option list gmap strings.

Open Scope string_scope.
Open Scope list_scope.
Open Scope nat_scope.

(** ** Python values, exceptions and results *)

Abbreviation loc := nat (only parsing).

Inductive pyval :=
| VNone
| VInt (z : Z)
| VFloat (q : Q)
| VStr (s : string)
| VRef (l : loc)
| VCallback (trial_number : nat) (metric : string).

Inductive exn :=
| KeyError (key : string)
| TypeError (msg : string)
| AttributeError (msg : string)
| ValueError (msg : string)
| NotFittedError
| TrialPruned
| XGBoostError (msg : string).

Inductive result (A : Type) :=
| Ok (a : A)
| Raise (e : exn).
Arguments Ok {A} a.
Arguments Raise {A} e.

(** The label-table lookup [ground_truth[column]] raises [KeyError column]
    when the column is absent; this is the failure the specification calls
    UnknownTargetColumn. *)
Definition UnknownTargetColumn (column : string) : exn := KeyError column.

(** ** Strings *)

(** [sep.join(l)] of Python. *)
Fixpoint join (sep : string) (l : list string) : string :=
  match l with
  | [] => ""
  | [x] => x
  | x :: xs => x +:+ sep +:+ join sep xs
  end.




(** ** Study identity (lines 139-153 of the source) *)

Definition study_name (modality : list string) : string :=
  "XGBoostOptuna" +:+ join "|" modality.

Definition storage_url (db_path : string) (modality : list string)
    (classification_type : string) : string :=
  "sqlite:////" +:+ db_path +:+ "/xgb_" +:+ join "_" modality +:+ "_"
    +:+ classification_type +:+ ".db".

(** The identity under which the study is created or resumed: the storage
    it lives in and its name inside that storage. *)
Definition study_identity (db_path : string) (modality : list string)
    (classification_type : string) : string * string :=
  (storage_url db_path modality classification_type, study_name modality).

(** ** The persisted study log *)

Inductive TrialState := Running | Complete | Pruned | Fail.

Global Instance TrialState_eq_dec : EqDecision TrialState.
Proof. solve_decision. Defined.

Record FrozenTrial := mkTrial {
  number : nat;
  state : TrialState;
  value : option Q;
  params : gmap string pyval
}.

(** ** External collaborators

    The dataset, the gradient-boosting trainer, the fold splitter and the
    sampler are outside the file; they are taken as an interface.  Every
    operation that can raise in Python returns a [result]. *)

Class Collaborators := {
  Dataset : Type;
  Features : Type;
  Booster : Type;
  (** [sleep_analysis.classification.utils.utils.get_db_path] *)
  get_db_path : string;
  (** [dataset.get_concat_dataset(dataset, modality=...)]: the features
      table and the label table (column name to label column) *)
  get_concat_dataset :
    Dataset → list string → result (Features * gmap string (list Z));
  (** [datapoint.get_features(datapoint, modality=...)] *)
  get_features : Dataset → list string → result Features;
  (** the defaults of the signature of [xgboost.XGBClassifier]: the
      parameters a classifier carries for the keywords it is not given
      (in xgboost, [objective] defaults to [binary:logistic]) *)
  xgb_defaults : gmap string pyval;
  (** the training run behind [XGBClassifier.fit] *)
  xgb_fit : gmap string pyval → Features → list Z → result Booster;
  (** the prediction behind [XGBClassifier.predict] *)
  xgb_predict : Booster → Features → list Z;
  (** the [cv]-fold split of [tpcp.validate.cross_validate] *)
  kfold : nat → Dataset → result (list (Dataset * Dataset));
  (** the draw of the sampler seeded with [seed], given the trials
      recorded so far (the running one last), for one named parameter *)
  sample_int : Z → list FrozenTrial → string → Z → Z → Z;
  sample_float : Z → list FrozenTrial → string → Q → Q → Q
}.

(** ** Objects and the store *)

(** An [xgboost.XGBClassifier]: its constructor parameters and, once
    fitted, its trained booster. *)
Record XGBClassifier `{Collaborators} := mkClassifier {
  clf_params : gmap string pyval;
  clf_booster : option Booster
}.
Arguments mkClassifier {_} _ _.

(** The attributes of an [XGBPipeline] instance; [classification_] is the
    result attribute written by [run]. *)
Record XGBPipeline := mkPipeline {
  classifier : pyval;
  modality : list string;
  n_estimators : pyval;
  max_depth : pyval;
  reg_alpha : pyval;
  reg_lambda : pyval;
  min_child_weight : pyval;
  gamma : pyval;
  learning_rate : pyval;
  colsample_bytree : pyval;
  classification_type : string;
  epoch_length : Z;
  algorithm : string;
  classification_ : option (list Z)
}.

Inductive obj `{Collaborators} :=
| OClassifier (c : XGBClassifier)
| OPipeline (p : XGBPipeline).
Arguments OClassifier {_} c.
Arguments OPipeline {_} p.

(** ** The world: the store and the persisted studies *)

(** A study is found under its storage URL and its name. *)
Abbreviation StudyKey := (string * string)%type (only parsing).

Record world `{Collaborators} := mkWorld {
  heap : list obj;
  storage : gmap (string * string) (list FrozenTrial)
}.
Arguments mkWorld {_} _ _.

(** ** The monad of stateful, fallible code *)

Section Monad.
Context `{Collaborators}.

Definition M (A : Type) : Type := world → result A * world.

Definition ret {A} (a : A) : M A := λ σ, (Ok a, σ).

Definition bind {A B} (m : M A) (f : A → M B) : M B :=
  λ σ, match m σ with
       | (Ok a, σ') => f a σ'
       | (Raise e, σ') => (Raise e, σ')
       end.

Definition raise {A} (e : exn) : M A := λ σ, (Raise e, σ).

(** Lifting of a collaborator's answer. *)
Definition lift {A} (r : result A) : M A := λ σ, (r, σ).

(** [try: r = Ok (m) except Exception as e: r = Raise e]: the outcome of
    [m] as a value; the effects of [m] up to the exception remain. *)
Definition attempt {A} (m : M A) : M (result A) :=
  λ σ, (Ok (m σ).1, (m σ).2).

(** *** Store primitives *)

(** A new object gets the next free location. *)
Definition alloc (o : obj) : M loc :=
  λ σ, (Ok (length (heap σ)), mkWorld (heap σ ++ [o]) (storage σ)).

(** In-place mutation of the object at [l]. *)
Definition put (l : loc) (o : obj) : M unit :=
  λ σ, (Ok tt, mkWorld (<[l := o]> (heap σ)) (storage σ)).

Definition get_classifier (v : pyval) : M XGBClassifier :=
  λ σ, match v with
       | VRef l =>
           match heap σ !! l with
           | Some (OClassifier c) => (Ok c, σ)
           | _ => (Raise (AttributeError "not an XGBClassifier"), σ)
           end
       | _ => (Raise (AttributeError "not an XGBClassifier"), σ)
       end.

Definition get_pipeline (l : loc) : M XGBPipeline :=
  λ σ, match heap σ !! l with
       | Some (OPipeline p) => (Ok p, σ)
       | _ => (Raise (AttributeError "not an XGBPipeline"), σ)
       end.

(** [d[key]] on a table or dictionary. *)
Definition getitem {A} (d : gmap string A) (key : string) : M A :=
  match d !! key with
  | Some a => ret a
  | None => raise (KeyError key)
  end.

(** *** Study-log primitives *)

Definition get_trials (key : StudyKey) : M (list FrozenTrial) :=
  λ σ, (Ok (default [] (storage σ !! key)), σ).

Definition set_trials (key : StudyKey) (ts : list FrozenTrial) : M unit :=
  λ σ, (Ok tt, mkWorld (heap σ) (<[key := ts]> (storage σ))).
End Monad.

Notation "'let*' x ':=' m 'in' k" := (bind m (λ x, k))
  (at level 10, x name, m at level 100, k at level 200).
Notation "'let*' ' x ':=' m 'in' k" := (bind m (λ x, k))
  (at level 10, x strict pattern, m at level 100, k at level 200).
Notation "m '>>' k" := (bind m (λ _, k))
  (at level 100, k at level 200, right associativity).

(** ** numpy *)

Definition Qsum (l : list Q) : Q := foldr Qplus 0%Q l.

(** [np.mean(l)]; on an empty sequence Python yields NaN, which the
    rationals render as [0 / 0 = 0]. *)
Definition mean (l : list Q) : Q :=
  (Qsum l / inject_Z (Z.of_nat (length l)))%Q.

(** ** xgboost and scikit-learn *)

Module XGBClassifier.
Section XGBClassifier.
Context `{Collaborators}.

(** [XGBClassifier] called with the keyword arguments [kwargs]: an
    unfitted classifier that carries the keywords it is given and, for
    every other parameter of the signature, the default. *)
Definition __init__ (kwargs : gmap string pyval) : M loc :=
  alloc (OClassifier (mkClassifier (kwargs ∪ xgb_defaults) None)).

(** [XGBClassifier] called with [objective=...] and the keyword
    arguments [kwargs]; a keyword given twice is a [TypeError]. *)
Definition __init__objective (objective : string)
    (kwargs : gmap string pyval) : M loc :=
  match kwargs !! "objective" with
  | Some _ =>
      raise (TypeError "got multiple values for keyword argument")
  | None => __init__ (<["objective" := VStr objective]> kwargs)
  end.

(** [classifier.set_params] with the keyword arguments [params]: stores
    the values, returns the same object. *)
Definition set_params (classifier : loc) (params : gmap string pyval)
    : M loc :=
  let* c := get_classifier (VRef classifier) in
  put classifier
    (OClassifier (mkClassifier (params ∪ clf_params c) (clf_booster c))) >>
  ret classifier.

(** [classifier.fit(X, y)]: trains in place, returns the same object. *)
Definition fit (classifier : loc) (X : Features) (y : list Z) : M loc :=
  let* c := get_classifier (VRef classifier) in
  let* b := lift (xgb_fit (clf_params c) X y) in
  put classifier (OClassifier (mkClassifier (clf_params c) (Some b))) >>
  ret classifier.

(** [classifier.predict(X)] *)
Definition predict (classifier : pyval) (X : Features) : M (list Z) :=
  let* c := get_classifier classifier in
  match clf_booster c with
  | Some b => ret (xgb_predict b X)
  | None => raise NotFittedError
  end.
End XGBClassifier.
End XGBClassifier.

Module sklearn.
Section sklearn.
Context `{Collaborators}.

(** [sklearn.base.clone(estimator)]: a new unfitted estimator with the
    same parameters. *)
Definition clone (estimator : pyval) : M loc :=
  let* c := get_classifier estimator in
  alloc (OClassifier (mkClassifier (clf_params c) None)).
End sklearn.
End sklearn.

(** ** class XGBPipeline (lines 15-89 of the source) *)

Module XGBPipeline.
Section XGBPipeline.
Context `{Collaborators}.

(** Lines 18-45: every argument is stored as given. *)
Definition __init__ (modality : list string)
    (n_estimators max_depth reg_alpha reg_lambda min_child_weight gamma
     learning_rate colsample_bytree classifier : pyval)
    (classification_type : string) : XGBPipeline :=
  {| classifier := classifier;
     modality := modality;
     n_estimators := n_estimators;
     max_depth := max_depth;
     reg_alpha := reg_alpha;
     reg_lambda := reg_lambda;
     min_child_weight := min_child_weight;
     gamma := gamma;
     learning_rate := learning_rate;
     colsample_bytree := colsample_bytree;
     classification_type := classification_type;
     epoch_length := 30;
     algorithm := "xgb";
     classification_ := None |}.

(** The default arguments of [__init__]; the default classifier is a
    new [XGBClassifier(n_jobs=-1)] per instance ([cf]). *)
Definition new (modality : list string) : M loc :=
  let* c := XGBClassifier.__init__ {[ "n_jobs" := VInt (-1) ]} in
  alloc (OPipeline
    (__init__ modality (VInt 100) (VInt 10) (VInt 0) (VInt 0) (VInt 0)
       (VFloat 0) (VFloat (5 # 1000)) (VFloat (1 # 10)) (VRef c)
       "binary")).

(** [self.classifier = v] *)
Definition set_classifier (v : pyval) (p : XGBPipeline) : XGBPipeline :=
  {| classifier := v;
     modality := modality p;
     n_estimators := n_estimators p;
     max_depth := max_depth p;
     reg_alpha := reg_alpha p;
     reg_lambda := reg_lambda p;
     min_child_weight := min_child_weight p;
     gamma := gamma p;
     learning_rate := learning_rate p;
     colsample_bytree := colsample_bytree p;
     classification_type := classification_type p;
     epoch_length := epoch_length p;
     algorithm := algorithm p;
     classification_ := classification_ p |}.

(** [self.classification_ = v] *)
Definition set_classification_ (v : list Z) (p : XGBPipeline)
    : XGBPipeline :=
  {| classifier := classifier p;
     modality := modality p;
     n_estimators := n_estimators p;
     max_depth := max_depth p;
     reg_alpha := reg_alpha p;
     reg_lambda := reg_lambda p;
     min_child_weight := min_child_weight p;
     gamma := gamma p;
     learning_rate := learning_rate p;
     colsample_bytree := colsample_bytree p;
     classification_type := classification_type p;
     epoch_length := epoch_length p;
     algorithm := algorithm p;
     classification_ := Some v |}.

(** The dictionary [params] of lines 68-77. *)
Definition hyperparameters (p : XGBPipeline) : gmap string pyval :=
  <["n_estimators" := n_estimators p]>
  (<["max_depth" := max_depth p]>
  (<["reg_alpha" := reg_alpha p]>
  (<["reg_lambda" := reg_lambda p]>
  (<["min_child_weight" := min_child_weight p]>
  (<["gamma" := gamma p]>
  (<["learning_rate" := learning_rate p]>
  (<["colsample_bytree" := colsample_bytree p]> ∅))))))).

(** Lines 67-78. *)
Definition _set_classifier_params (self : loc) (classifier : loc)
    : M loc :=
  let* p := get_pipeline self in
  let params := hyperparameters p in
  XGBClassifier.set_params classifier params.

(** Lines 47-65.  The keyword arguments [kwargs] are accepted and not
    used. *)
Definition self_optimize (self : loc) (dataset : Dataset)
    (kwargs : gmap string pyval) : M loc :=
  let* p := get_pipeline self in
  let* ' (features, ground_truth) :=
    lift (get_concat_dataset dataset (modality p)) in
  let* c0 := sklearn.clone (classifier p) in
  let* c := _set_classifier_params self c0 in
  let* p := get_pipeline self in
  let* fitted :=
    (if decide (classification_type p = "binary") then
       let* y := getitem ground_truth "sleep" in
       XGBClassifier.fit c features y
     else
       let* y := getitem ground_truth (classification_type p) in
       XGBClassifier.fit c features y) in
  let* p := get_pipeline self in
  put self (OPipeline (set_classifier (VRef fitted) p)) >>
  ret self.

(** Lines 80-89. *)
Definition run (self : loc) (datapoint : Dataset) : M loc :=
  let* p := get_pipeline self in
  let* features := lift (get_features datapoint (modality p)) in
  let* predictions := XGBClassifier.predict (classifier p) features in
  let* p := get_pipeline self in
  put self (OPipeline (set_classification_ predictions p)) >>
  ret self.
End XGBPipeline.
End XGBPipeline.

(** ** tpcp *)

Module tpcp.
Section tpcp.
Context `{Collaborators}.

(** A parameter value held by an object is copied with the object. *)
Definition deepcopy (v : pyval) : M pyval :=
  match v with
  | VRef l =>
      let* c := get_classifier (VRef l) in
      let* l' := alloc (OClassifier c) in
      ret (VRef l')
  | _ => ret v
  end.

(** Modelled from the spec: [pipeline.clone()] of [tpcp], not in the
    source file; section 4.1: a new pipeline with identical
    hyperparameters that shares no mutable state with the original.
    The new instance is built by [__init__] from copies of the
    parameters. *)
Definition clone (pipeline : loc) : M loc :=
  let* p := get_pipeline pipeline in
  let* c := deepcopy (classifier p) in
  alloc (OPipeline
    (XGBPipeline.__init__ (modality p) (n_estimators p) (max_depth p)
       (reg_alpha p) (reg_lambda p) (min_child_weight p) (gamma p)
       (learning_rate p) (colsample_bytree p) c
       (classification_type p))).

(** The parameter names [set_params] accepts in this model: the
    constructor arguments that hold a [pyval]. *)
Definition param_names : gset string :=
  {[ "classifier"; "n_estimators"; "max_depth"; "reg_alpha";
     "reg_lambda"; "min_child_weight"; "gamma"; "learning_rate";
     "colsample_bytree" ]}.

Definition update_params (kw : gmap string pyval) (p : XGBPipeline)
    : XGBPipeline :=
  {| classifier := default (classifier p) (kw !! "classifier");
     modality := modality p;
     n_estimators := default (n_estimators p) (kw !! "n_estimators");
     max_depth := default (max_depth p) (kw !! "max_depth");
     reg_alpha := default (reg_alpha p) (kw !! "reg_alpha");
     reg_lambda := default (reg_lambda p) (kw !! "reg_lambda");
     min_child_weight :=
       default (min_child_weight p) (kw !! "min_child_weight");
     gamma := default (gamma p) (kw !! "gamma");
     learning_rate := default (learning_rate p) (kw !! "learning_rate");
     colsample_bytree :=
       default (colsample_bytree p) (kw !! "colsample_bytree");
     classification_type := classification_type p;
     epoch_length := epoch_length p;
     algorithm := algorithm p;
     classification_ := classification_ p |}.

(** [pipeline.set_params] with the keyword arguments [kw]: each named
    attribute is overwritten in place; an unknown name is a
    [ValueError]; the values themselves are not inspected. *)
Definition set_params (pipeline : loc) (kw : gmap string pyval) : M loc :=
  let* p := get_pipeline pipeline in
  if decide (dom kw ⊆ param_names) then
    put pipeline (OPipeline (update_params kw p)) >>
    ret pipeline
  else raise (ValueError "Invalid parameter").

(** [Optimize(pipeline).optimize(dataset, ...).optimized_pipeline_]:
    [self_optimize] runs on a copy of the wrapped pipeline. *)
Definition optimize (pipeline : loc) (dataset : Dataset)
    (optimize_params : gmap string pyval) : M loc :=
  let* p := clone pipeline in
  XGBPipeline.self_optimize p dataset optimize_params.

(** The caller's score function observes the store and the held-out
    data and returns named metrics; it does not change the store. *)
Definition Scorer : Type :=
  list obj → loc → Dataset → result (gmap string Q).

Definition score (scoring : Scorer) (pipeline : loc) (test : Dataset)
    : M (gmap string Q) :=
  λ σ, (scoring (heap σ) pipeline test, σ).

(** One fold after the other: a copy of the optimizer's pipeline is
    optimized on the train part and scored on the test part. *)
Fixpoint run_folds (pipeline : loc) (folds : list (Dataset * Dataset))
    (optimize_params : gmap string pyval) (scoring : Scorer)
    : M (list (gmap string Q)) :=
  match folds with
  | [] => ret []
  | (train, test) :: rest =>
      let* optimizer := clone pipeline in
      let* fitted := optimize optimizer train optimize_params in
      let* s := score scoring fitted test in
      let* ss := run_folds pipeline rest optimize_params scoring in
      ret (s :: ss)
  end.

(** Modelled from the spec: [tpcp.validate.cross_validate], not in the
    source file; section 4.2: each fold clones the pipeline template,
    fits on the fold's train split and scores on its test split; the
    output holds the per-fold values of each named metric.  The result
    is the sequence of per-fold score dictionaries. *)
Definition cross_validate (optimizable : loc) (dataset : Dataset)
    (cv : nat) (optimize_params : gmap string pyval) (scoring : Scorer)
    : M (list (gmap string Q)) :=
  let* folds := lift (kfold cv dataset) in
  run_folds optimizable folds optimize_params scoring.

(** [s] without the prefix [pre], when it has it. *)
Fixpoint strip_prefix (pre s : string) : option string :=
  match pre, s with
  | EmptyString, _ => Some s
  | String a pre', String b s' =>
      if decide (a = b) then strip_prefix pre' s' else None
  | String _ _, EmptyString => None
  end.

(** [results[key]]: the per-fold values of the metric [m] are found
    under ["test_" + m]. *)
Definition results_getitem (results : list (gmap string Q)) (key : string)
    : M (list Q) :=
  match results, strip_prefix "test_" key with
  | _ :: _, Some m =>
      match mapM (λ s : gmap string Q, s !! m) results with
      | Some l => ret l
      | None => raise (KeyError key)
      end
  | _, _ => raise (KeyError key)
  end.
End tpcp.
End tpcp.

(** ** optuna *)

Module optuna.
Inductive Direction := maximize | minimize.
Inductive Pruner := MedianPruner.

Record Study := mkStudy {
  study_key : StudyKey;
  direction : Direction;
  sampler_seed : Z;
  pruner : Pruner
}.

(** The handle the objective receives for the running trial. *)
Record Trial := mkHandle {
  study : Study;
  trial_number : nat
}.

(** The objective of a trial that counts for selection: only a
    completed trial has one. *)
Definition objective_value (t : FrozenTrial) : option Q :=
  if decide (state t = Complete) then value t else None.

(** [a] is at least as good as [b] in the study's direction. *)
Definition at_least (d : Direction) (a b : Q) : bool :=
  match d with
  | maximize => Qle_bool b a
  | minimize => Qle_bool a b
  end.

(** Modelled from the spec: [study.best_trial] of [optuna], not in the
    source file; section 4.4: the completed (non-pruned, non-failed)
    trial with the extremal objective per direction, none if no trial
    has completed.  Among equals the earliest trial is kept. *)
Fixpoint best_trial (d : Direction) (trials : list FrozenTrial)
    : option FrozenTrial :=
  match trials with
  | [] => None
  | t :: rest =>
      match objective_value t, best_trial d rest with
      | None, b => b
      | Some _, None => Some t
      | Some v, Some b =>
          match objective_value b with
          | Some w => if at_least d v w then Some t else Some b
          | None => Some t
          end
      end
  end.

Definition set_params_of (name : string) (v : pyval) (t : FrozenTrial)
    : FrozenTrial :=
  mkTrial (number t) (state t) (value t) (<[name := v]> (params t)).

Definition set_outcome (st : TrialState) (v : option Q) (t : FrozenTrial)
    : FrozenTrial :=
  mkTrial (number t) st v (params t).

Section optuna.
Context `{Collaborators}.

(** [optuna.create_study(..., load_if_exists=True)]: a study persisted
    under the same storage and name is resumed with its trials,
    otherwise an empty one is created. *)
Definition create_study (d : Direction) (study_name : string)
    (seed : Z) (storage_url : string) (load_if_exists : bool)
    (p : Pruner) : M Study :=
  let key := (storage_url, study_name) in
  λ σ, match storage σ !! key with
       | Some _ =>
           if load_if_exists then (Ok (mkStudy key d seed p), σ)
           else (Raise (ValueError "DuplicatedStudyError"), σ)
       | None =>
           (Ok (mkStudy key d seed p),
            mkWorld (heap σ) (<[key := []]> (storage σ)))
       end.

(** A new running trial is appended to the log. *)
Definition ask (s : Study) : M Trial :=
  let* ts := get_trials (study_key s) in
  set_trials (study_key s)
    (ts ++ [mkTrial (length ts) Running None ∅]) >>
  ret (mkHandle s (length ts)).

Definition update_trial (t : Trial) (f : FrozenTrial → FrozenTrial)
    : M unit :=
  let* ts := get_trials (study_key (study t)) in
  set_trials (study_key (study t)) (alter f (trial_number t) ts).

(** [trial.suggest_int(name, low, high)]: the draw is recorded with the
    trial. *)
Definition suggest_int (t : Trial) (name : string) (low high : Z)
    : M Z :=
  if decide (high < low)%Z then raise (ValueError "low > high") else
  let* ts := get_trials (study_key (study t)) in
  let v := sample_int (sampler_seed (study t)) ts name low high in
  update_trial t (set_params_of name (VInt v)) >>
  ret v.

(** [trial.suggest_float(name, low, high)] *)
Definition suggest_float (t : Trial) (name : string) (low high : Q)
    : M Q :=
  if Qlt_le_dec high low then raise (ValueError "low > high") else
  let* ts := get_trials (study_key (study t)) in
  let v := sample_float (sampler_seed (study t)) ts name low high in
  update_trial t (set_params_of name (VFloat v)) >>
  ret v.

(** The trial leaves the running state. *)
Definition tell (t : Trial) (st : TrialState) (v : option Q) : M unit :=
  update_trial t (set_outcome st v).

(** One trial: the objective runs; its value, a pruning signal or any
    other exception decides the recorded state; an exception other
    than the pruning signal is raised again after recording. *)
Definition run_trial (s : Study) (objective : Trial → M Q) : M unit :=
  let* t := ask s in
  let* r := attempt (objective t) in
  match r with
  | Ok v => tell t Complete (Some v)
  | Raise TrialPruned => tell t Pruned None
  | Raise e => tell t Fail None >> raise e
  end.

(** Modelled from the spec: [study.optimize(objective, n_trials)] of
    [optuna], not in the source file; section 4.4, [run]: one new
    trial after the other, each recorded in the persisted log. *)
Fixpoint optimize (s : Study) (objective : Trial → M Q) (n_trials : nat)
    : M unit :=
  match n_trials with
  | O => ret tt
  | S n => run_trial s objective >> optimize s objective n
  end.

(** [study.best_params] *)
Definition best_params (s : Study) : M (gmap string pyval) :=
  let* ts := get_trials (study_key s) in
  match best_trial (direction s) ts with
  | Some t => ret (params t)
  | None => raise (ValueError "No trials are completed yet.")
  end.
End optuna.
End optuna.

(** ** class XGBOptuna (lines 95-170 of the source) *)

Module XGBOptuna.
Section XGBOptuna.
Context `{Collaborators}.

Record t := mk {
  pipeline : loc;
  score_function : tpcp.Scorer;
  res : gmap string pyval;
  seed : Z;
  modality : list string;
  classification_type : string;
  optimized_pipeline_ : option loc
}.

(** Lines 96-102. *)
Definition __init__ (pipeline : loc) (score_function : tpcp.Scorer)
    (modality : list string) (classification_type : string) (seed : Z)
    : t :=
  {| pipeline := pipeline;
     score_function := score_function;
     res := ∅;
     seed := seed;
     modality := modality;
     classification_type := classification_type;
     optimized_pipeline_ := None |}.

Definition set_optimized_pipeline_ (p : loc) (self : t) : t :=
  {| pipeline := pipeline self;
     score_function := score_function self;
     res := res self;
     seed := seed self;
     modality := modality self;
     classification_type := classification_type self;
     optimized_pipeline_ := Some p |}.

(** Lines 108-117: the eight draws, in the order of the dictionary
    display. *)
Definition paras_to_be_searched (trial : optuna.Trial)
    : M (gmap string pyval) :=
  let* n_estimators := optuna.suggest_int trial "n_estimators" 200 400 in
  let* max_depth := optuna.suggest_int trial "max_depth" 5 25 in
  let* reg_alpha := optuna.suggest_int trial "reg_alpha" 0 25 in
  let* reg_lambda := optuna.suggest_int trial "reg_lambda" 0 25 in
  let* min_child_weight :=
    optuna.suggest_int trial "min_child_weight" 0 25 in
  let* gamma := optuna.suggest_int trial "gamma" 5 25 in
  let* learning_rate :=
    optuna.suggest_float trial "learning_rate" (1 # 100) (1 # 10) in
  let* colsample_bytree :=
    optuna.suggest_float trial "colsample_bytree" (1 # 10) 1 in
  ret (<["n_estimators" := VInt n_estimators]>
      (<["max_depth" := VInt max_depth]>
      (<["reg_alpha" := VInt reg_alpha]>
      (<["reg_lambda" := VInt reg_lambda]>
      (<["min_child_weight" := VInt min_child_weight]>
      (<["gamma" := VInt gamma]>
      (<["learning_rate" := VFloat learning_rate]>
      (<["colsample_bytree" := VFloat colsample_bytree]> ∅)))))))).

(** Lines 107-136, the nested function [objective]. *)
Definition objective (self : t) (dataset : Dataset)
    (trial : optuna.Trial) : M Q :=
  let* paras := paras_to_be_searched trial in
  let* cloned := tpcp.clone (pipeline self) in
  let* temp_pipeline := tpcp.set_params cloned paras in
  let pruning_callback :=
    VCallback (optuna.trial_number trial) "test_mcc" in
  let* results :=
    tpcp.cross_validate temp_pipeline dataset 5
      (<["early_stopping_rounds" := VInt 10]>
       (<["pruning_callback" := pruning_callback]> ∅))
      (score_function self) in
  let* folds := tpcp.results_getitem results "test_mcc" in
  ret (mean folds).

(** Lines 104-170. *)
Definition optimize (self : t) (dataset : Dataset)
    (optimize_params : gmap string pyval) : M t :=
  let db_path := get_db_path in
  let* study :=
    optuna.create_study optuna.maximize
      ("XGBoostOptuna" +:+ join "|" (modality self))
      (seed self)
      ("sqlite:////" +:+ db_path +:+ "/xgb_"
         +:+ join "_" (modality self) +:+ "_"
         +:+ classification_type self +:+ ".db")
      true optuna.MedianPruner in
  optuna.optimize study (objective self dataset) 1 >>
  let* best_parameters := optuna.best_params study in
  let* clf :=
    (if decide (classification_type self = "binary") then
       let* kwargs := optuna.best_params study in
       XGBClassifier.__init__objective "binary:logistic" kwargs
     else
       let* kwargs := optuna.best_params study in
       XGBClassifier.__init__ kwargs) in
  let best_parameters := <["classifier" := VRef clf]> best_parameters in
  let* cloned := tpcp.clone (pipeline self) in
  let* configured := tpcp.set_params cloned best_parameters in
  let* optimized := tpcp.optimize configured dataset optimize_params in
  ret (set_optimized_pipeline_ optimized self).
End XGBOptuna.
End XGBOptuna.

(** ** Vocabulary of the properties *)

Section Vocabulary.
Context `{Collaborators}.

(** Between [σ] and [σ'] the store only grew, and below [n] only the
    locations in [W] may have changed. *)
Definition heap_frame (W : loc → Prop) (n : nat) (σ σ' : world) : Prop :=
  length (heap σ) ≤ length (heap σ') ∧
  ∀ l, l < n → ¬ W l → heap σ' !! l = heap σ !! l.

(** [m], run in any world with at least [n] objects, leaves the study
    log alone, changes below [n] only the locations in [W], and returns
    a value satisfying [Q] when it returns at all. *)
Definition heap_only {A} (W : loc → Prop) (n : nat) (m : M A)
    (Q : A → Prop) : Prop :=
  ∀ σ, n ≤ length (heap σ) →
    heap_frame W n σ (m σ).2 ∧
    storage (m σ).2 = storage σ ∧
    ∀ a, (m σ).1 = Ok a → Q a.

(** [m] changes below [n] only the locations in [W], whatever its
    outcome. *)
Definition frames {A} (W : loc → Prop) (n : nat) (m : M A) : Prop :=
  ∀ σ, n ≤ length (heap σ) → heap_frame W n σ (m σ).2.

(** [m] leaves the store alone. *)
Definition storage_only {A} (m : M A) : Prop :=
  ∀ σ, heap (m σ).2 = heap σ.

(** What [pipeline.run(datapoint).classification_] evaluates to in a
    given world. *)
Definition predictions (pipeline : loc) (datapoint : Dataset) (σ : world)
    : result (list Z) :=
  (bind (XGBPipeline.run pipeline datapoint) (λ p,
   bind (get_pipeline p) (λ pl,
     match classification_ pl with
     | Some c => ret c
     | None => raise (AttributeError "classification_")
     end)) σ).1.

(** The pipeline a clone of [p] starts as, given its copied
    classifier value. *)
Definition cloned_from (p : XGBPipeline) (c : pyval) : XGBPipeline :=
  XGBPipeline.__init__ (modality p) (n_estimators p) (max_depth p)
    (reg_alpha p) (reg_lambda p) (min_child_weight p) (gamma p)
    (learning_rate p) (colsample_bytree p) c (classification_type p).

(** The trials recorded for the study [key]. *)
Definition trials_of (key : StudyKey) (σ : world) : list FrozenTrial :=
  default [] (storage σ !! key).

(** Lines 139-155: the study is created or resumed and the trials
    are run. *)
Definition search_phase (self : XGBOptuna.t) (dataset : Dataset)
    : M unit :=
  let* study :=
    optuna.create_study optuna.maximize
      ("XGBoostOptuna" +:+ join "|" (XGBOptuna.modality self))
      (XGBOptuna.seed self)
      ("sqlite:////" +:+ get_db_path +:+ "/xgb_"
         +:+ join "_" (XGBOptuna.modality self) +:+ "_"
         +:+ XGBOptuna.classification_type self +:+ ".db")
      true optuna.MedianPruner in
  optuna.optimize study (XGBOptuna.objective self dataset) 1.

(** The log of the study [key] is [old] followed by the trial [t]. *)
Definition logged (key : string * string) (old : list FrozenTrial)
    (t : FrozenTrial) (σ : world) : Prop :=
  storage σ !! key = Some (old ++ [t]).

(** While a trial runs, only its own record in the log of [key]
    changes: it keeps its number, state and value, the store is left
    alone and so are the other studies. *)
Definition running (key : string * string) (old : list FrozenTrial)
    (σ0 : world) (t0 : FrozenTrial) (σ : world) (t : FrozenTrial)
    : Prop :=
  heap σ = heap σ0 ∧ logged key old t σ ∧
  (∀ k, k ≠ key → storage σ !! k = storage σ0 !! k) ∧
  number t = number t0 ∧ state t = state t0 ∧ value t = value t0.

(** The contract of the sampler behind [trial.suggest_int] and
    [trial.suggest_float]: a draw lies inside the range it is asked
    for. *)
Definition sampler_in_range : Prop :=
  (∀ seed ts name low high, (low ≤ high)%Z →
     (low ≤ sample_int seed ts name low high ≤ high)%Z) ∧
  (∀ seed ts name low high, (low <= high)%Q →
     (low <= sample_float seed ts name low high)%Q ∧
     (sample_float seed ts name low high <= high)%Q).


(** The target column of [self_optimize]. *)
Definition target_column (classification_type : string) : string :=
  if decide (classification_type = "binary") then "sleep"
  else classification_type.
End Vocabulary.

(** The keyword arguments the finalizer builds its classifier from
    (lines 158-161). *)
Definition constructor_params (classification_type : string)
    (best : gmap string pyval) : gmap string pyval :=
  if decide (classification_type = "binary") then
    <["objective" := VStr "binary:logistic"]> best
  else best.

(** A value is a number inside the range the search declares for the
    hyperparameter [name] (lines 109-116); a value of another type, or a
    name without a declared range, is not. *)
Definition within_declared (name : string) (v : pyval) : bool :=
  match v with
  | VInt z =>
      if decide (name = "n_estimators") then
        bool_decide (200 ≤ z ≤ 400)%Z
      else if decide (name = "max_depth") then bool_decide (5 ≤ z ≤ 25)%Z
      else if decide (name = "reg_alpha") then bool_decide (0 ≤ z ≤ 25)%Z
      else if decide (name = "reg_lambda") then bool_decide (0 ≤ z ≤ 25)%Z
      else if decide (name = "min_child_weight") then
        bool_decide (0 ≤ z ≤ 25)%Z
      else if decide (name = "gamma") then bool_decide (5 ≤ z ≤ 25)%Z
      else false
  | VFloat q =>
      if decide (name = "learning_rate") then
        Qle_bool (1 # 100) q && Qle_bool q (1 # 10)
      else if decide (name = "colsample_bytree") then
        Qle_bool (1 # 10) q && Qle_bool q 1
      else false
  | _ => false
  end.

(** A dictionary holds an integer in [low, high] under [name]. *)
Definition int_in (paras : gmap string pyval) (name : string) (low high : Z)
    : Prop :=
  ∃ z, paras !! name = Some (VInt z) ∧ (low ≤ z ≤ high)%Z.

(** A dictionary holds a float in [low, high] under [name]. *)
Definition float_in (paras : gmap string pyval) (name : string)
    (low high : Q) : Prop :=
  ∃ q, paras !! name = Some (VFloat q) ∧ (low <= q)%Q ∧ (q <= high)%Q.

(** The search ranges of lines 109-116. *)
Definition in_search_ranges (paras : gmap string pyval) : Prop :=
  int_in paras "n_estimators" 200 400 ∧
  int_in paras "max_depth" 5 25 ∧
  int_in paras "reg_alpha" 0 25 ∧
  int_in paras "reg_lambda" 0 25 ∧
  int_in paras "min_child_weight" 0 25 ∧
  int_in paras "gamma" 5 25 ∧
  float_in paras "learning_rate" (1 # 100) (1 # 10) ∧
  float_in paras "colsample_bytree" (1 # 10) 1.

(** The names of the eight searched hyperparameters. *)
Definition hyperparameter_names : gset string :=
  {[ "n_estimators"; "max_depth"; "reg_alpha"; "reg_lambda";
     "min_child_weight"; "gamma"; "learning_rate"; "colsample_bytree" ]}.

(** ** A small concrete world

    A dataset is the list of its subjects, a subject being its label;
    the trainer records what it was trained on; the sampler draws the
    lower end of every range. *)

Module Toy.
Definition labels (d : list Z) : gmap string (list Z) :=
  <["sleep" := (λ x, x `mod` 2)%Z <$> d]> (<["5stage" := d]> ∅).

Definition folds (cv : nat) (d : list Z) : list (list Z * list Z) :=
  (λ i, (take i d ++ drop (S i) d, take 1 (drop i d))) <$> seq 0 cv.

#[export] Instance collaborators : Collaborators := {|
  Dataset := list Z;
  Features := list Z;
  Booster := gmap string pyval * list Z * list Z;
  get_db_path := "/tmp/db";
  get_concat_dataset := λ d _, Ok (d, labels d);
  get_features := λ d _, Ok d;
  xgb_defaults := {[ "objective" := VStr "binary:logistic" ]};
  xgb_fit := λ ps X y, Ok (ps, X, y);
  xgb_predict := λ b X, (λ _, 0%Z) <$> X;
  kfold := λ cv d,
    if decide (cv ≤ length d)%nat then Ok (folds cv d)
    else Raise (ValueError "fewer subjects than folds");
  sample_int := λ _ _ _ low _, low;
  sample_float := λ _ _ _ low _, low
|}.

Definition scorer : tpcp.Scorer :=
  λ _ _ test, Ok {[ "mcc" := (Z.of_nat (length test) # 2)%Q ]}.

Definition dataset : @Dataset collaborators :=
  [0; 1; 2; 3; 4; 1; 0]%Z.

Definition empty_world : world := mkWorld [] ∅.

(** A world holding one default pipeline for the modalities [acc] and
    [hr], at location 1 (its classifier is at location 0). *)
Definition world0 : world :=
  (XGBPipeline.new ["acc"; "hr"] empty_world).2.

Definition classifier0 : XGBClassifier :=
  mkClassifier ({[ "n_jobs" := VInt (-1) ]} ∪ xgb_defaults) None.

(** The pipeline of [world0]. *)
Definition pipeline0 : XGBPipeline :=
  XGBPipeline.__init__ ["acc"; "hr"] (VInt 100) (VInt 10) (VInt 0)
    (VInt 0) (VInt 0) (VFloat 0) (VFloat (5 # 1000)) (VFloat (1 # 10))
    (VRef 0) "binary".

(** Two clones of the pipeline of [world0], at locations 3 and 5, and
    the first of them fitted. *)
Definition world1 : world := (tpcp.clone 1 world0).2.
Definition world2 : world := (tpcp.clone 1 world1).2.
Definition world3 : world :=
  (XGBPipeline.self_optimize 3 dataset ∅ world2).2.

(** A study with one completed trial of objective 0.8 and one pruned
    trial. *)
Definition study0 : optuna.Study :=
  optuna.mkStudy (study_identity "/tmp/db" ["acc"; "hr"] "binary")
    optuna.maximize 1 optuna.MedianPruner.

Definition completed0 : FrozenTrial :=
  mkTrial 0 Complete (Some (4 # 5)) {[ "n_estimators" := VInt 300 ]}.

Definition pruned1 : FrozenTrial :=
  mkTrial 1 Pruned None {[ "n_estimators" := VInt 200 ]}.

Definition logged_world : world :=
  mkWorld [] {[ optuna.study_key study0 := [completed0; pruned1] ]}.

(** A pipeline whose [n_estimators] is a string, whose [max_depth] is
    negative and whose [learning_rate] is [None], at location 1, with
    its classifier at location 0. *)
Definition malformed_world : world :=
  mkWorld
    [OClassifier (mkClassifier {[ "n_jobs" := VInt (-1) ]} None);
     OPipeline
       (XGBPipeline.__init__ ["acc"] (VStr "many") (VInt (-3)) (VInt 0)
          (VInt 0) (VInt 0) (VFloat 0) VNone (VFloat (1 # 10)) (VRef 0)
          "binary")]
    ∅.

Definition searcher (classification_type : string) : XGBOptuna.t :=
  XGBOptuna.__init__ 1 scorer ["acc"; "hr"] classification_type 1.

(** The outcome of a search in binary mode on [world0]. *)
Definition searched : XGBOptuna.t :=
  XGBOptuna.set_optimized_pipeline_ 33 (searcher "binary").

Definition world_searched : world :=
  (XGBOptuna.optimize (searcher "binary") dataset ∅ world0).2.

(** A score function that gives the pruning signal, and a search
    that uses it. *)
Definition pruning_scorer : tpcp.Scorer := λ _ _ _, Raise TrialPruned.

Definition pruned_searcher : XGBOptuna.t :=
  XGBOptuna.__init__ 1 pruning_scorer ["acc"; "hr"] "binary" 1.

(** A score function that fails, and a search that uses it. *)
Definition failing_scorer : tpcp.Scorer :=
  λ _ _ _, Raise (ValueError "no score").

Definition failing_searcher : XGBOptuna.t :=
  XGBOptuna.__init__ 1 failing_scorer ["acc"; "hr"] "binary" 1.

(** The handle of the first trial of [study0]. *)
Definition trial0 : optuna.Trial := optuna.mkHandle study0 0.
End Toy.

(** * Properties *)

(** ** Strings *)














(** ** Best-trial selection *)

Lemma at_least_refl (d : optuna.Direction) (a : Q) :
  optuna.at_least d a a = true.
Proof. destruct d; simpl; apply Qle_bool_iff, Qle_refl. Qed.

Lemma at_least_trans (d : optuna.Direction) (a b c : Q) :
  optuna.at_least d a b = true → optuna.at_least d b c = true →
  optuna.at_least d a c = true.
Proof.
  destruct d; simpl; rewrite !Qle_bool_iff; intros; eapply Qle_trans; eauto.
Qed.

Lemma at_least_total (d : optuna.Direction) (a b : Q) :
  optuna.at_least d a b = false → optuna.at_least d b a = true.
Proof.
  destruct d; simpl; intros E; apply Qle_bool_iff;
    destruct (Qlt_le_dec a b) as [L|L], (Qlt_le_dec b a) as [L'|L'];
    try done; try (by apply Qlt_le_weak);
    apply Qle_bool_iff in L || apply Qle_bool_iff in L'; congruence.
Qed.

Lemma best_trial_None (d : optuna.Direction) (trials : list FrozenTrial) :
  optuna.best_trial d trials = None →
  ∀ t, t ∈ trials → optuna.objective_value t = None.
Proof.
  induction trials as [|t ts IH]; simpl; intros E u Hu.
  - by apply elem_of_nil in Hu.
  - destruct (optuna.objective_value t) eqn:Et.
    + destruct (optuna.best_trial d ts) as [b|]; [|done].
      destruct (optuna.objective_value b); [|done].
      by destruct (optuna.at_least d q q0).
    + apply elem_of_cons in Hu as [->|Hu]; auto.
Qed.

Lemma best_trial_Some (d : optuna.Direction) (trials : list FrozenTrial)
    (b : FrozenTrial) :
  optuna.best_trial d trials = Some b →
  b ∈ trials ∧
  ∃ v, optuna.objective_value b = Some v ∧
    ∀ t w, t ∈ trials → optuna.objective_value t = Some w →
      optuna.at_least d v w = true.
Proof.
  revert b. induction trials as [|t ts IH]; simpl; intros b E; [done|].
  destruct (optuna.objective_value t) as [v|] eqn:Et.
  - destruct (optuna.best_trial d ts) as [b'|] eqn:Eb.
    + destruct (IH b' eq_refl) as (Hin & w & Ew & Hmax). rewrite Ew in E.
      destruct (optuna.at_least d v w) eqn:Evw; injection E as <-.
      * split; [left|]. exists v. split; [done|].
        intros u x Hu Ex. apply elem_of_cons in Hu as [->|Hu].
        -- rewrite Et in Ex. injection Ex as <-. apply at_least_refl.
        -- eapply at_least_trans; eauto.
      * split; [by right|]. exists w. split; [done|].
        intros u x Hu Ex. apply elem_of_cons in Hu as [->|Hu]; eauto.
        rewrite Et in Ex. injection Ex as <-. by apply at_least_total.
    + injection E as <-. split; [left|]. exists v. split; [done|].
      intros u x Hu Ex. apply elem_of_cons in Hu as [->|Hu].
      * rewrite Et in Ex. injection Ex as <-. apply at_least_refl.
      * by rewrite (best_trial_None d ts Eb u Hu) in Ex.
  - destruct (IH b E) as (Hin & w & Ew & Hmax).
    split; [by right|]. exists w. split; [done|].
    intros u x Hu Ex. apply elem_of_cons in Hu as [->|Hu]; eauto.
    congruence.
Qed.

Lemma objective_value_Some (t : FrozenTrial) (v : Q) :
  optuna.objective_value t = Some v ↔ state t = Complete ∧ value t = Some v.
Proof. unfold optuna.objective_value. case_decide; naive_solver. Qed.

(** C7: in every study state that holds at least one completed trial,
    the selection behind [study.best_params] of a maximizing study
    returns a trial of the log that is completed (so neither pruned nor
    failed) and whose objective is maximal among the completed trials; a
    pruned trial has no objective for the selection and is never the one
    selected. *)
Theorem best_trial_completed_maximal `{Collaborators}
    (s : optuna.Study) (σ : world) (trials : list FrozenTrial) :
  optuna.direction s = optuna.maximize →
  storage σ !! optuna.study_key s = Some trials →
  (∃ t v, t ∈ trials ∧ state t = Complete ∧ value t = Some v) →
  ∃ b v,
    optuna.best_trial optuna.maximize trials = Some b ∧
    optuna.best_params s σ = (Ok (params b), σ) ∧
    b ∈ trials ∧ state b = Complete ∧ value b = Some v ∧
    (∀ t w, t ∈ trials → state t = Complete → value t = Some w →
       (w <= v)%Q) ∧
    (∀ t, t ∈ trials → state t = Pruned →
       optuna.objective_value t = None ∧ t ≠ b).
Proof.
  intros Hd Hs (t & v & Ht & Hst & Hv).
  destruct (optuna.best_trial optuna.maximize trials) as [b|] eqn:Eb.
  - destruct (best_trial_Some _ _ _ Eb) as (Hin & w & Ew & Hmax).
    apply objective_value_Some in Ew as [Hc Hw].
    exists b, w. split; [done|]. split.
    { unfold optuna.best_params, bind, get_trials. rewrite Hs, Hd. simpl.
      by rewrite Eb. }
    repeat split; try done.
    + intros u x Hu Hcu Hxu. apply Qle_bool_iff.
      apply (Hmax u x Hu). by apply objective_value_Some.
    + unfold optuna.objective_value. case_decide; congruence.
    + intros ->. congruence.
  - exfalso.
    assert (optuna.objective_value t = Some v) as E
      by by apply objective_value_Some.
    by rewrite (best_trial_None _ _ Eb t Ht) in E.
Qed.

Lemma best_trial_completed_maximal_witness :
  optuna.best_trial optuna.maximize [Toy.completed0; Toy.pruned1]
    = Some Toy.completed0 ∧
  optuna.best_params (H:=Toy.collaborators) Toy.study0 Toy.logged_world
    = (Ok (params Toy.completed0), Toy.logged_world).
Proof.
  destruct (best_trial_completed_maximal (H:=Toy.collaborators)
              Toy.study0 Toy.logged_world [Toy.completed0; Toy.pruned1]
              eq_refl eq_refl)
    as (b & v & Hb & Hp & _).
  { exists Toy.completed0, (4 # 5)%Q.
    split; [apply list_elem_of_here|]. split; reflexivity. }
  assert (b = Toy.completed0) as -> by (by injection Hb).
  split; [reflexivity | exact Hp].
Defined.

(** ** Reasoning about stateful code *)

Section Hoare.
Context `{Collaborators}.

Lemma bind_Ok {A B} (m : M A) (f : A → M B) σ b σ' :
  bind m f σ = (Ok b, σ') →
  ∃ a σ1, m σ = (Ok a, σ1) ∧ f a σ1 = (Ok b, σ').
Proof.
  unfold bind. destruct (m σ) as [[a|e] σ1]; [eauto | discriminate].
Qed.

Lemma bind_eq {A B} (m : M A) (f : A → M B) σ a σ1 :
  m σ = (Ok a, σ1) → bind m f σ = f a σ1.
Proof. unfold bind. by intros ->. Qed.

Lemma bind_raise {A B} (m : M A) (f : A → M B) σ e σ1 :
  m σ = (Raise e, σ1) → bind m f σ = (Raise e, σ1).
Proof. unfold bind. by intros ->. Qed.

(** A run is known from its result and its final world. *)
Lemma outcome_Ok {A} (m : M A) σ a :
  (m σ).1 = Ok a → m σ = (Ok a, (m σ).2).
Proof. destruct (m σ) as [r σ']. simpl. by intros ->. Qed.

Lemma heap_frame_refl W n σ : heap_frame W n σ σ.
Proof. by split. Qed.

Lemma heap_frame_trans W n σ1 σ2 σ3 :
  heap_frame W n σ1 σ2 → heap_frame W n σ2 σ3 → heap_frame W n σ1 σ3.
Proof.
  intros [L1 F1] [L2 F2]. split; [lia|].
  intros l Hl HW. by rewrite F2, F1.
Qed.

Lemma heap_only_ret {A} W n (a : A) (Q : A → Prop) :
  Q a → heap_only W n (ret a) Q.
Proof.
  intros HQ σ _. simpl. split; [apply heap_frame_refl|].
  split; [done|]. by intros ? [= <-].
Qed.

Lemma heap_only_raise {A} W n e (Q : A → Prop) :
  heap_only W n (raise e) Q.
Proof. intros σ _. simpl. split; [apply heap_frame_refl|]. done. Qed.

Lemma heap_only_lift {A} W n (r : result A) :
  heap_only W n (lift r) (λ _, True).
Proof. intros σ _. simpl. split; [apply heap_frame_refl|]. done. Qed.

Lemma heap_only_weaken {A} W n (m : M A) (Q Q' : A → Prop) :
  heap_only W n m Q → (∀ a, Q a → Q' a) → heap_only W n m Q'.
Proof.
  intros Hm HQ σ Hn. destruct (Hm σ Hn) as (F & S & P). eauto.
Qed.

Lemma heap_only_bind {A B} W n (m : M A) (f : A → M B)
    (Q : A → Prop) (R : B → Prop) :
  heap_only W n m Q → (∀ a, Q a → heap_only W n (f a) R) →
  heap_only W n (bind m f) R.
Proof.
  intros Hm Hf σ Hn. destruct (Hm σ Hn) as (F & S & P).
  unfold bind. destruct (m σ) as [[a|e] σ1] eqn:E; simpl in *.
  - destruct (Hf a (P a eq_refl) σ1) as (F' & S' & P').
    { destruct F. lia. }
    split; [by eapply heap_frame_trans|].
    split; [congruence | done].
  - done.
Qed.

Lemma heap_only_attempt {A} W n (m : M A) (Q : A → Prop) :
  heap_only W n m Q → heap_only W n (attempt m) (λ _, True).
Proof.
  intros Hm σ Hn. destruct (Hm σ Hn) as (F & S & P).
  unfold attempt. simpl. done.
Qed.

Lemma heap_only_alloc W n o : heap_only W n (alloc o) (λ l, n ≤ l).
Proof.
  intros σ Hn. unfold heap_frame, alloc. simpl. split; [split|].
  - rewrite length_app. simpl. lia.
  - intros l Hl _. apply lookup_app_l. lia.
  - split; [done|]. intros ? [= <-]. done.
Qed.

Lemma heap_only_put W n l o :
  W l ∨ n ≤ l → heap_only W n (put l o) (λ _, True).
Proof.
  intros Hl σ Hn. unfold heap_frame, put. simpl. split; [split|done].
  - by rewrite length_insert.
  - intros l' Hl' HW. apply list_lookup_insert_ne.
    intros ->. destruct Hl; [done | lia].
Qed.

Lemma heap_only_get_classifier W n v :
  heap_only W n (get_classifier v) (λ _, True).
Proof.
  intros σ _. unfold get_classifier.
  destruct v; simpl; try (split; [apply heap_frame_refl | done]).
  destruct (heap σ !! l) as [[]|]; simpl;
    (split; [apply heap_frame_refl | done]).
Qed.

Lemma heap_only_get_pipeline W n l :
  heap_only W n (get_pipeline l) (λ _, True).
Proof.
  intros σ _. unfold get_pipeline.
  destruct (heap σ !! l) as [[]|]; simpl;
    (split; [apply heap_frame_refl | done]).
Qed.

Lemma heap_only_getitem {A} W n (d : gmap string A) key :
  heap_only W n (getitem d key) (λ _, True).
Proof.
  unfold getitem. destruct (d !! key);
    [by apply heap_only_ret | apply heap_only_raise].
Qed.
End Hoare.

(** One step of a proof that a computation only touches the store. *)
Ltac heap_step :=
  lazymatch goal with
  | |- heap_only _ _ (bind _ _) _ =>
      eapply heap_only_bind; [|intros ? ?]
  | |- heap_only _ _ (ret _) _ => apply heap_only_ret
  | |- heap_only _ _ (raise _) _ => apply heap_only_raise
  | |- heap_only _ _ (lift _) _ => apply heap_only_lift
  | |- heap_only _ _ (alloc _) _ => apply heap_only_alloc
  | |- heap_only _ _ (put _ _) _ => apply heap_only_put
  | |- heap_only _ _ (get_classifier _) _ => apply heap_only_get_classifier
  | |- heap_only _ _ (get_pipeline _) _ => apply heap_only_get_pipeline
  | |- heap_only _ _ (getitem _ _) _ => apply heap_only_getitem
  end.

(** The postconditions collected so far, in usable form. *)
Ltac tidy := cbv beta in *; subst.

(** ** What each operation may touch *)

Section Frames.
Context `{Collaborators}.
Variables (W : loc → Prop) (n : nat).

Lemma init_heap_only kwargs :
  heap_only W n (XGBClassifier.__init__ kwargs) (λ l, n ≤ l).
Proof. unfold XGBClassifier.__init__. heap_step. Qed.

Lemma init_objective_heap_only objective kwargs :
  heap_only W n (XGBClassifier.__init__objective objective kwargs)
    (λ l, n ≤ l).
Proof.
  unfold XGBClassifier.__init__objective.
  destruct (kwargs !! "objective"); [heap_step | apply init_heap_only].
Qed.

Lemma clf_set_params_heap_only c params :
  W c ∨ n ≤ c →
  heap_only W n (XGBClassifier.set_params c params) (λ r, r = c).
Proof.
  intros Hc. unfold XGBClassifier.set_params.
  repeat heap_step; done.
Qed.

Lemma fit_heap_only c X y :
  W c ∨ n ≤ c → heap_only W n (XGBClassifier.fit c X y) (λ r, r = c).
Proof. intros Hc. unfold XGBClassifier.fit. repeat heap_step; done. Qed.

Lemma predict_heap_only v X :
  heap_only W n (XGBClassifier.predict v X) (λ _, True).
Proof.
  unfold XGBClassifier.predict. repeat heap_step.
  destruct (clf_booster a); heap_step. done.
Qed.

Lemma sklearn_clone_heap_only v :
  heap_only W n (sklearn.clone v) (λ l, n ≤ l).
Proof. unfold sklearn.clone. repeat heap_step. Qed.

Lemma set_classifier_params_heap_only self c :
  W c ∨ n ≤ c →
  heap_only W n (XGBPipeline._set_classifier_params self c) (λ r, r = c).
Proof.
  intros Hc. unfold XGBPipeline._set_classifier_params.
  heap_step; [heap_step|]. by apply clf_set_params_heap_only.
Qed.

Lemma self_optimize_heap_only self dataset kwargs :
  W self ∨ n ≤ self →
  heap_only W n (XGBPipeline.self_optimize self dataset kwargs)
    (λ r, r = self).
Proof.
  intros Hs. unfold XGBPipeline.self_optimize.
  heap_step; [heap_step|]. heap_step; [heap_step|]. destruct a0.
  heap_step; [apply sklearn_clone_heap_only|].
  tidy. heap_step; [apply set_classifier_params_heap_only; by right|].
  tidy. heap_step; [heap_step|].
  heap_step.
  { case_decide; (heap_step; [heap_step|]);
      apply fit_heap_only; by right. }
  tidy. repeat heap_step; done.
Qed.

Lemma run_heap_only self datapoint :
  W self ∨ n ≤ self →
  heap_only W n (XGBPipeline.run self datapoint) (λ r, r = self).
Proof.
  intros Hs. unfold XGBPipeline.run.
  heap_step; [heap_step|]. heap_step; [heap_step|].
  heap_step; [apply predict_heap_only|].
  repeat heap_step; done.
Qed.

Lemma deepcopy_heap_only v :
  heap_only W n (tpcp.deepcopy v) (λ _, True).
Proof. unfold tpcp.deepcopy. destruct v; repeat heap_step; done. Qed.

Lemma clone_heap_only p : heap_only W n (tpcp.clone p) (λ l, n ≤ l).
Proof.
  unfold tpcp.clone. heap_step; [heap_step|].
  heap_step; [apply deepcopy_heap_only|]. heap_step.
Qed.

Lemma set_params_heap_only l kw :
  W l ∨ n ≤ l → heap_only W n (tpcp.set_params l kw) (λ r, r = l).
Proof.
  intros Hl. unfold tpcp.set_params. heap_step; [heap_step|].
  case_decide; repeat heap_step; done.
Qed.

Lemma optimize_heap_only p dataset kw :
  heap_only W n (tpcp.optimize p dataset kw) (λ l, n ≤ l).
Proof.
  unfold tpcp.optimize. heap_step; [apply clone_heap_only|].
  eapply heap_only_weaken;
    [apply self_optimize_heap_only; by right | by intros ? ->].
Qed.

Lemma score_heap_only scoring p test :
  heap_only W n (tpcp.score scoring p test) (λ _, True).
Proof.
  intros σ _. unfold tpcp.score. simpl.
  split; [apply heap_frame_refl | done].
Qed.

Lemma run_folds_heap_only p folds kw scoring :
  heap_only W n (tpcp.run_folds p folds kw scoring) (λ _, True).
Proof.
  induction folds as [|[train test] rest IH]; simpl; [by heap_step|].
  heap_step; [apply clone_heap_only|].
  heap_step; [apply optimize_heap_only|].
  heap_step; [apply score_heap_only|].
  heap_step; [apply IH|]. by heap_step.
Qed.

Lemma cross_validate_heap_only p dataset cv kw scoring :
  heap_only W n (tpcp.cross_validate p dataset cv kw scoring)
    (λ _, True).
Proof.
  unfold tpcp.cross_validate. heap_step; [heap_step|].
  apply run_folds_heap_only.
Qed.

Lemma results_getitem_heap_only results key :
  heap_only W n (tpcp.results_getitem results key) (λ _, True).
Proof.
  unfold tpcp.results_getitem.
  destruct results; [heap_step|].
  destruct (tpcp.strip_prefix _ _); [|heap_step].
  destruct (mapM _ _); by heap_step.
Qed.
End Frames.

(** ** The search phase and the store *)

Section Search.
Context `{Collaborators}.

Lemma heap_only_frames {A} W n (m : M A) Q :
  heap_only W n m Q → frames W n m.
Proof. intros Hm σ Hn. by destruct (Hm σ Hn). Qed.

Lemma storage_only_frames {A} W n (m : M A) :
  storage_only m → frames W n m.
Proof.
  intros Hm σ Hn. unfold heap_frame. rewrite (Hm σ). by split.
Qed.

Lemma frames_bind {A B} W n (m : M A) (f : A → M B) :
  frames W n m → (∀ a, frames W n (f a)) → frames W n (bind m f).
Proof.
  intros Hm Hf σ Hn. specialize (Hm σ Hn). unfold bind.
  destruct (m σ) as [[a|e] σ1]; simpl in *; [|done].
  eapply heap_frame_trans; [done|]. apply Hf. destruct Hm. lia.
Qed.

Lemma frames_attempt {A} W n (m : M A) :
  frames W n m → frames W n (attempt m).
Proof. intros Hm σ Hn. by apply Hm. Qed.

Lemma storage_only_bind {A B} (m : M A) (f : A → M B) :
  storage_only m → (∀ a, storage_only (f a)) → storage_only (bind m f).
Proof.
  intros Hm Hf σ. specialize (Hm σ). unfold bind.
  destruct (m σ) as [[a|e] σ1]; simpl in *; [|done].
  by rewrite Hf.
Qed.

Lemma storage_only_ret {A} (a : A) : storage_only (ret a).
Proof. done. Qed.

Lemma storage_only_raise {A} e : storage_only (raise (A:=A) e).
Proof. done. Qed.

Lemma storage_only_get_trials key : storage_only (get_trials key).
Proof. done. Qed.

Lemma storage_only_set_trials key ts : storage_only (set_trials key ts).
Proof. done. Qed.

Lemma storage_only_update_trial t f :
  storage_only (optuna.update_trial t f).
Proof.
  apply storage_only_bind; [done|]. intros. apply storage_only_set_trials.
Qed.

Lemma storage_only_suggest_int t name low high :
  storage_only (optuna.suggest_int t name low high).
Proof.
  unfold optuna.suggest_int. case_decide; [done|].
  apply storage_only_bind; [done|]. intros ts.
  apply storage_only_bind; [apply storage_only_update_trial | done].
Qed.

Lemma storage_only_suggest_float t name low high :
  storage_only (optuna.suggest_float t name low high).
Proof.
  unfold optuna.suggest_float. destruct (Qlt_le_dec _ _); [done|].
  apply storage_only_bind; [done|]. intros ts.
  apply storage_only_bind; [apply storage_only_update_trial | done].
Qed.

Lemma storage_only_paras trial :
  storage_only (XGBOptuna.paras_to_be_searched trial).
Proof.
  unfold XGBOptuna.paras_to_be_searched.
  repeat (apply storage_only_bind;
    [first [apply storage_only_suggest_int
           |apply storage_only_suggest_float] | intros ?]).
  done.
Qed.

Lemma storage_only_ask s : storage_only (optuna.ask s).
Proof.
  unfold optuna.ask. apply storage_only_bind; [done|]. intros ts.
  apply storage_only_bind; [done | done].
Qed.

Lemma storage_only_tell t st v : storage_only (optuna.tell t st v).
Proof. apply storage_only_update_trial. Qed.

Lemma storage_only_create_study d name seed url load p :
  storage_only (optuna.create_study d name seed url load p).
Proof.
  intros σ. unfold optuna.create_study.
  destruct (storage σ !! _); [by destruct load | done].
Qed.

Lemma storage_only_best_params s : storage_only (optuna.best_params s).
Proof.
  unfold optuna.best_params. apply storage_only_bind; [done|].
  intros ts. by destruct (optuna.best_trial _ _).
Qed.

(** The evaluation of a trial after the draws: everything it touches
    is newly allocated. *)
Lemma objective_frames W n self dataset trial :
  frames W n (XGBOptuna.objective self dataset trial).
Proof.
  unfold XGBOptuna.objective. apply frames_bind.
  { apply storage_only_frames, storage_only_paras. }
  intros paras. eapply heap_only_frames.
  heap_step; [apply clone_heap_only|]. tidy.
  heap_step; [apply set_params_heap_only; by right|]. tidy.
  heap_step; [apply cross_validate_heap_only|].
  heap_step; [apply results_getitem_heap_only|].
  by apply (heap_only_ret _ _ _ (λ _, True)).
Qed.

Lemma run_trial_frames W n s self dataset :
  frames W n (optuna.run_trial s (XGBOptuna.objective self dataset)).
Proof.
  unfold optuna.run_trial. apply frames_bind.
  { apply storage_only_frames, storage_only_ask. }
  intros t. apply frames_bind.
  { apply frames_attempt, objective_frames. }
  intros [v|e].
  - apply storage_only_frames, storage_only_tell.
  - destruct e; try apply storage_only_frames, storage_only_tell;
      (apply frames_bind;
        [apply storage_only_frames, storage_only_tell
        |intros; by apply storage_only_frames]).
Qed.

Lemma search_frames W n s self dataset k :
  frames W n (optuna.optimize s (XGBOptuna.objective self dataset) k).
Proof.
  induction k as [|k IH]; simpl.
  - by apply storage_only_frames.
  - apply frames_bind; [apply run_trial_frames | done].
Qed.
End Search.

(** ** Successful runs, step by step *)

Section Inversion.
Context `{Collaborators}.

Lemma ret_Ok {A} (a b : A) σ σ' : ret a σ = (Ok b, σ') → b = a ∧ σ' = σ.
Proof. by intros [= -> ->]. Qed.

Lemma lift_Ok {A} (r : result A) a σ σ' :
  lift r σ = (Ok a, σ') → r = Ok a ∧ σ' = σ.
Proof. by intros [= -> ->]. Qed.

Lemma alloc_Ok o l σ σ' :
  alloc o σ = (Ok l, σ') →
  l = length (heap σ) ∧ σ' = mkWorld (heap σ ++ [o]) (storage σ).
Proof. by intros [= <- <-]. Qed.

Lemma put_Ok l o u σ σ' :
  put l o σ = (Ok u, σ') → σ' = mkWorld (<[l := o]> (heap σ)) (storage σ).
Proof. by intros [= <-]. Qed.

Lemma get_pipeline_Ok l p σ σ' :
  get_pipeline l σ = (Ok p, σ') →
  heap σ !! l = Some (OPipeline p) ∧ σ' = σ.
Proof.
  unfold get_pipeline. destruct (heap σ !! l) as [[]|]; by intros [= <- <-].
Qed.

Lemma get_classifier_Ok v c σ σ' :
  get_classifier v σ = (Ok c, σ') →
  ∃ l, v = VRef l ∧ heap σ !! l = Some (OClassifier c) ∧ σ' = σ.
Proof.
  unfold get_classifier. destruct v; try discriminate.
  destruct (heap σ !! l) as [[]|] eqn:E; intros [= <- <-]; eauto.
Qed.

Lemma getitem_Ok {A} (d : gmap string A) key a σ σ' :
  getitem d key σ = (Ok a, σ') → d !! key = Some a ∧ σ' = σ.
Proof.
  unfold getitem. destruct (d !! key); [|discriminate].
  by intros [= <- <-].
Qed.

Lemma get_pipeline_eq l p σ :
  heap σ !! l = Some (OPipeline p) → get_pipeline l σ = (Ok p, σ).
Proof. unfold get_pipeline. by intros ->. Qed.

Lemma get_classifier_eq l c σ :
  heap σ !! l = Some (OClassifier c) →
  get_classifier (VRef l) σ = (Ok c, σ).
Proof. unfold get_classifier. by intros ->. Qed.

Lemma sklearn_clone_Ok v l σ σ' :
  sklearn.clone v σ = (Ok l, σ') →
  ∃ c cl, v = VRef c ∧ heap σ !! c = Some (OClassifier cl) ∧
    l = length (heap σ) ∧
    σ' = mkWorld (heap σ ++ [OClassifier (mkClassifier (clf_params cl) None)])
           (storage σ).
Proof.
  unfold sklearn.clone. intros E.
  apply bind_Ok in E as (cl & σ1 & E1 & E).
  apply get_classifier_Ok in E1 as (c & -> & Hc & ->).
  apply alloc_Ok in E as [-> ->]. eauto 10.
Qed.

Lemma clf_set_params_Ok c params r σ σ' :
  XGBClassifier.set_params c params σ = (Ok r, σ') →
  ∃ cl, heap σ !! c = Some (OClassifier cl) ∧ r = c ∧
    σ' = mkWorld
           (<[c := OClassifier
                     (mkClassifier (params ∪ clf_params cl) (clf_booster cl))]>
              (heap σ))
           (storage σ).
Proof.
  unfold XGBClassifier.set_params. intros E.
  apply bind_Ok in E as (cl & σ1 & E1 & E).
  apply get_classifier_Ok in E1 as (l & [= <-] & Hc & ->).
  apply bind_Ok in E as (u & σ2 & E2 & E).
  apply put_Ok in E2 as ->. apply ret_Ok in E as [-> ->]. eauto.
Qed.

Lemma fit_Ok c X y r σ σ' :
  XGBClassifier.fit c X y σ = (Ok r, σ') →
  ∃ cl b, heap σ !! c = Some (OClassifier cl) ∧
    xgb_fit (clf_params cl) X y = Ok b ∧ r = c ∧
    σ' = mkWorld
           (<[c := OClassifier (mkClassifier (clf_params cl) (Some b))]>
              (heap σ))
           (storage σ).
Proof.
  unfold XGBClassifier.fit. intros E.
  apply bind_Ok in E as (cl & σ1 & E1 & E).
  apply get_classifier_Ok in E1 as (l & [= <-] & Hc & ->).
  apply bind_Ok in E as (b & σ2 & E2 & E).
  apply lift_Ok in E2 as [Hb ->].
  apply bind_Ok in E as (u & σ3 & E3 & E).
  apply put_Ok in E3 as ->. apply ret_Ok in E as [-> ->]. eauto 10.
Qed.

Lemma insert_snoc {A} (l : list A) (x y : A) :
  <[length l := y]> (l ++ [x]) = l ++ [y].
Proof.
  rewrite insert_app_r_alt by lia. by rewrite Nat.sub_diag.
Qed.

Lemma lookup_snoc {A} (l : list A) (x : A) :
  (l ++ [x]) !! length l = Some x.
Proof. by rewrite list_lookup_middle. Qed.

(** What a successful [self_optimize] has done. *)
Lemma self_optimize_Ok self dataset kwargs r σ σ' :
  XGBPipeline.self_optimize self dataset kwargs σ = (Ok r, σ') →
  ∃ p c cl X gt y b,
    heap σ !! self = Some (OPipeline p) ∧
    classifier p = VRef c ∧
    heap σ !! c = Some (OClassifier cl) ∧
    get_concat_dataset dataset (modality p) = Ok (X, gt) ∧
    gt !! target_column (classification_type p) = Some y ∧
    xgb_fit (XGBPipeline.hyperparameters p ∪ clf_params cl) X y = Ok b ∧
    r = self ∧
    σ' = mkWorld
           (<[self := OPipeline
               (XGBPipeline.set_classifier (VRef (length (heap σ))) p)]>
              (heap σ ++
               [OClassifier
                  (mkClassifier
                     (XGBPipeline.hyperparameters p ∪ clf_params cl)
                     (Some b))]))
           (storage σ).
Proof.
  unfold XGBPipeline.self_optimize. intros E.
  apply bind_Ok in E as (p & σ1 & E1 & E).
  apply get_pipeline_Ok in E1 as [Hp ->].
  apply bind_Ok in E as ([X gt] & σ1 & E1 & E).
  apply lift_Ok in E1 as [Hd ->].
  apply bind_Ok in E as (c0 & σ1 & E1 & E).
  apply sklearn_clone_Ok in E1 as (c & cl & Hc & Hcl & -> & ->).
  apply bind_Ok in E as (c1 & σ1 & E1 & E).
  unfold XGBPipeline._set_classifier_params in E1.
  apply bind_Ok in E1 as (p' & σ2 & E2 & E1).
  apply get_pipeline_Ok in E2 as [Hp' ->]. simpl in Hp'.
  rewrite lookup_app_l in Hp' by (by eapply lookup_lt_Some).
  rewrite Hp in Hp'. injection Hp' as <-.
  apply clf_set_params_Ok in E1 as (cl' & Hcl' & -> & ->).
  simpl in Hcl'. rewrite lookup_snoc in Hcl'. injection Hcl' as <-.
  simpl in E. rewrite insert_snoc in E.
  apply bind_Ok in E as (p' & σ2 & E2 & E).
  apply get_pipeline_Ok in E2 as [Hp' ->]. simpl in Hp'.
  rewrite lookup_app_l in Hp' by (by eapply lookup_lt_Some).
  rewrite Hp in Hp'. injection Hp' as <-.
  apply bind_Ok in E as (f & σ2 & E2 & E).
  assert (∃ y, gt !! target_column (classification_type p) = Some y ∧
            XGBClassifier.fit (length (heap σ)) X y
              (mkWorld (heap σ ++
                 [OClassifier (mkClassifier
                    (XGBPipeline.hyperparameters p ∪ clf_params cl) None)])
                 (storage σ)) = (Ok f, σ2)) as (y & Hy & Ef).
  { unfold target_column. case_decide;
      apply bind_Ok in E2 as (y & σ3 & E3 & E2);
      apply getitem_Ok in E3 as [Hy ->]; eauto. }
  clear E2. apply fit_Ok in Ef as (cl' & b & Hcl' & Hb & -> & ->).
  simpl in Hcl'. rewrite lookup_snoc in Hcl'. injection Hcl' as <-.
  simpl in *. rewrite insert_snoc in E.
  apply bind_Ok in E as (p' & σ2 & E2 & E).
  apply get_pipeline_Ok in E2 as [Hp' ->]. simpl in Hp'.
  rewrite lookup_app_l in Hp' by (by eapply lookup_lt_Some).
  rewrite Hp in Hp'. injection Hp' as <-.
  apply bind_Ok in E as (u & σ2 & E2 & E).
  apply put_Ok in E2 as ->. apply ret_Ok in E as [-> ->]. simpl.
  exists p, c, cl, X, gt, y, b. done.
Qed.
End Inversion.

Section InversionTpcp.
Context `{Collaborators}.

(** What a successful [clone] has done: the new pipeline, and the copy
    of its classifier when it has one, are new objects. *)
Lemma clone_Ok pipeline l σ σ' :
  tpcp.clone pipeline σ = (Ok l, σ') →
  ∃ p v news,
    heap σ !! pipeline = Some (OPipeline p) ∧
    heap σ' = heap σ ++ news ++ [OPipeline (cloned_from p v)] ∧
    l = length (heap σ) + length news ∧
    storage σ' = storage σ ∧
    ((∃ c cl, classifier p = VRef c ∧
        heap σ !! c = Some (OClassifier cl) ∧
        v = VRef (length (heap σ)) ∧ news = [OClassifier cl])
     ∨ ((∀ c, classifier p ≠ VRef c) ∧ v = classifier p ∧ news = [])).
Proof.
  unfold tpcp.clone. intros E.
  apply bind_Ok in E as (p & σ1 & E1 & E).
  apply get_pipeline_Ok in E1 as [Hp ->].
  apply bind_Ok in E as (v & σ1 & E1 & E).
  apply alloc_Ok in E as [-> ->].
  unfold tpcp.deepcopy in E1.
  destruct (classifier p) as [| | | |c|] eqn:Ec;
    try (apply ret_Ok in E1 as [-> ->]; exists p, (classifier p), [];
         rewrite Ec; simpl; rewrite Nat.add_0_r;
         split_and!; try done; right; by split_and!).
  apply bind_Ok in E1 as (cl & σ2 & E2 & E1).
  apply get_classifier_Ok in E2 as (c' & [= <-] & Hcl & ->).
  apply bind_Ok in E1 as (l' & σ2 & E2 & E1).
  apply alloc_Ok in E2 as [-> ->]. apply ret_Ok in E1 as [-> ->].
  exists p, (VRef (length (heap σ))), [OClassifier cl]. simpl.
  rewrite length_app. simpl. rewrite <- app_assoc. simpl.
  split_and!; try done. left. by exists c, cl.
Qed.

Lemma set_params_Ok pipeline kw r σ σ' :
  tpcp.set_params pipeline kw σ = (Ok r, σ') →
  ∃ p, heap σ !! pipeline = Some (OPipeline p) ∧
    dom kw ⊆ tpcp.param_names ∧ r = pipeline ∧
    σ' = mkWorld (<[pipeline := OPipeline (tpcp.update_params kw p)]> (heap σ))
           (storage σ).
Proof.
  unfold tpcp.set_params. intros E.
  apply bind_Ok in E as (p & σ1 & E1 & E).
  apply get_pipeline_Ok in E1 as [Hp ->].
  case_decide; [|discriminate].
  apply bind_Ok in E as (u & σ1 & E1 & E).
  apply put_Ok in E1 as ->. apply ret_Ok in E as [-> ->]. eauto.
Qed.
End InversionTpcp.

(** ** Training on the whole dataset *)

Section SelfOptimize.
Context `{Collaborators}.

Lemma sklearn_clone_eq c cl σ :
  heap σ !! c = Some (OClassifier cl) →
  sklearn.clone (VRef c) σ =
    (Ok (length (heap σ)),
     mkWorld (heap σ ++ [OClassifier (mkClassifier (clf_params cl) None)])
       (storage σ)).
Proof.
  intros Hc. unfold sklearn.clone.
  by rewrite (bind_eq _ _ _ _ _ (get_classifier_eq _ _ _ Hc)).
Qed.

Lemma clf_set_params_eq c cl params σ :
  heap σ !! c = Some (OClassifier cl) →
  XGBClassifier.set_params c params σ =
    (Ok c,
     mkWorld
       (<[c := OClassifier
                 (mkClassifier (params ∪ clf_params cl) (clf_booster cl))]>
          (heap σ))
       (storage σ)).
Proof.
  intros Hc. unfold XGBClassifier.set_params.
  by rewrite (bind_eq _ _ _ _ _ (get_classifier_eq _ _ _ Hc)).
Qed.

Lemma fit_eq c cl X y σ :
  heap σ !! c = Some (OClassifier cl) →
  XGBClassifier.fit c X y σ =
    match xgb_fit (clf_params cl) X y with
    | Ok b =>
        (Ok c,
         mkWorld
           (<[c := OClassifier (mkClassifier (clf_params cl) (Some b))]>
              (heap σ))
           (storage σ))
    | Raise e => (Raise e, σ)
    end.
Proof.
  intros Hc. unfold XGBClassifier.fit.
  rewrite (bind_eq _ _ _ _ _ (get_classifier_eq _ _ _ Hc)).
  unfold bind, lift. by destruct (xgb_fit _ _ _).
Qed.

(** [self_optimize] on a pipeline whose classifier exists and whose
    dataset can be read: the outcome is decided by the target column
    and by the training run. *)
Lemma self_optimize_run self dataset kwargs σ p c cl X gt :
  heap σ !! self = Some (OPipeline p) →
  classifier p = VRef c →
  heap σ !! c = Some (OClassifier cl) →
  get_concat_dataset dataset (modality p) = Ok (X, gt) →
  XGBPipeline.self_optimize self dataset kwargs σ =
    let params := XGBPipeline.hyperparameters p ∪ clf_params cl in
    let unfitted :=
      mkWorld (heap σ ++ [OClassifier (mkClassifier params None)])
        (storage σ) in
    match gt !! target_column (classification_type p) with
    | None =>
        (Raise (KeyError (target_column (classification_type p))),
         unfitted)
    | Some y =>
        match xgb_fit params X y with
        | Ok b =>
            (Ok self,
             mkWorld
               (<[self := OPipeline
                   (XGBPipeline.set_classifier
                      (VRef (length (heap σ))) p)]>
                  (heap σ ++ [OClassifier (mkClassifier params (Some b))]))
               (storage σ))
        | Raise e => (Raise e, unfitted)
        end
    end.
Proof.
  intros Hp Hc Hcl Hd. unfold XGBPipeline.self_optimize.
  rewrite (bind_eq _ _ _ _ _ (get_pipeline_eq _ _ _ Hp)).
  rewrite (bind_eq _ _ σ (X, gt) σ) by (unfold lift; by rewrite Hd).
  rewrite Hc, (bind_eq _ _ _ _ _ (sklearn_clone_eq _ _ _ Hcl)).
  set (σ1 := mkWorld _ _).
  assert (heap σ1 !! self = Some (OPipeline p)) as Hp1
    by (by apply lookup_app_l_Some).
  unfold XGBPipeline._set_classifier_params.
  rewrite (bind_eq _ _ σ1 (length (heap σ))
    (mkWorld (heap σ ++ [OClassifier (mkClassifier
        (XGBPipeline.hyperparameters p ∪ clf_params cl) None)])
      (storage σ))).
  2:{ rewrite (bind_eq _ _ _ _ _ (get_pipeline_eq _ _ _ Hp1)).
      assert (heap σ1 !! length (heap σ) =
                Some (OClassifier (mkClassifier (clf_params cl) None)))
        as Hn by apply lookup_snoc.
      rewrite (clf_set_params_eq _ _ _ _ Hn).
      subst σ1. simpl. by rewrite insert_snoc. }
  clear σ1 Hp1. set (σ2 := mkWorld _ _).
  assert (heap σ2 !! self = Some (OPipeline p)) as Hp2
    by (by apply lookup_app_l_Some).
  rewrite (bind_eq _ _ _ _ _ (get_pipeline_eq _ _ _ Hp2)).
  assert ((if decide (classification_type p = "binary") then
            bind (getitem gt "sleep")
              (λ y, XGBClassifier.fit (length (heap σ)) X y)
          else
            bind (getitem gt (classification_type p))
              (λ y, XGBClassifier.fit (length (heap σ)) X y)) =
    bind (getitem gt (target_column (classification_type p)))
           (λ y, XGBClassifier.fit (length (heap σ)) X y)) as ->.
  { unfold target_column. by case_decide. }
  cbv zeta. unfold getitem.
  destruct (gt !! target_column (classification_type p)) as [y|].
  2:{ reflexivity. }
  assert (heap σ2 !! length (heap σ) =
            Some (OClassifier (mkClassifier
              (XGBPipeline.hyperparameters p ∪ clf_params cl) None)))
    as Hn by apply lookup_snoc.
  pose proof (fit_eq _ _ X y _ Hn) as Ef. clear Hn Hp2. subst σ2.
  simpl in Ef.
  change (XGBClassifier.fit ?n X y ?s)
    with (bind (ret y) (λ y, XGBClassifier.fit n X y) s) in Ef.
  destruct (xgb_fit _ X y) as [b|e];
    [rewrite insert_snoc in Ef; rewrite (bind_eq _ _ _ _ _ Ef)
    |by rewrite (bind_raise _ _ _ _ _ Ef)].
  set (σ3 := mkWorld _ _).
  assert (heap σ3 !! self = Some (OPipeline p)) as Hp3
    by (by apply lookup_app_l_Some).
  by rewrite (bind_eq _ _ _ _ _ (get_pipeline_eq _ _ _ Hp3)).
Qed.
End SelfOptimize.

(** C4: [self_optimize] trains on the column [sleep] of the label table
    when [classification_type] is [binary], and on the column named by
    [classification_type] otherwise; the classifier it installs is the
    one fitted on the whole feature table and that column.  When the
    column is absent from the label table the call fails with the
    lookup failure on that column (the spec's UnknownTargetColumn). *)
Theorem self_optimize_target_column `{Collaborators}
    (self : loc) (dataset : Dataset) (kwargs : gmap string pyval)
    (σ : world) (p : XGBPipeline) (c : loc) (cl : XGBClassifier)
    (X : Features) (gt : gmap string (list Z)) :
  heap σ !! self = Some (OPipeline p) →
  classifier p = VRef c →
  heap σ !! c = Some (OClassifier cl) →
  get_concat_dataset dataset (modality p) = Ok (X, gt) →
  let column :=
    if decide (classification_type p = "binary") then "sleep"
    else classification_type p in
  let params := XGBPipeline.hyperparameters p ∪ clf_params cl in
  (gt !! column = None →
     (XGBPipeline.self_optimize self dataset kwargs σ).1
       = Raise (UnknownTargetColumn column)) ∧
  (∀ y b, gt !! column = Some y → xgb_fit params X y = Ok b →
     ∃ σ',
       XGBPipeline.self_optimize self dataset kwargs σ = (Ok self, σ') ∧
       heap σ' !! self =
         Some (OPipeline
                 (XGBPipeline.set_classifier (VRef (length (heap σ))) p)) ∧
       heap σ' !! length (heap σ) =
         Some (OClassifier (mkClassifier params (Some b)))) ∧
  (∀ y e, gt !! column = Some y → xgb_fit params X y = Raise e →
     (XGBPipeline.self_optimize self dataset kwargs σ).1 = Raise e).
Proof.
  intros Hp Hc Hcl Hd column params.
  rewrite (self_optimize_run _ _ _ _ _ _ _ _ _ Hp Hc Hcl Hd).
  fold (target_column (classification_type p)) in column.
  fold column. fold params. cbv zeta.
  split_and!.
  - by intros ->.
  - intros y b -> ->. eexists. split; [done|]. simpl.
    assert (self < length (heap σ)) by (by eapply lookup_lt_Some).
    split.
    + apply list_lookup_insert_eq. rewrite length_app. lia.
    + rewrite list_lookup_insert_ne by lia. apply lookup_snoc.
  - by intros y e -> ->.
Qed.

Lemma self_optimize_target_column_witness :
  ∃ (σ' : @world Toy.collaborators) (b : @Booster Toy.collaborators),
    XGBPipeline.self_optimize 1 Toy.dataset ∅ Toy.world0 = (Ok 1, σ') ∧
    heap σ' !! 2 =
      Some (OClassifier
              (mkClassifier
                 (XGBPipeline.hyperparameters Toy.pipeline0
                  ∪ clf_params Toy.classifier0)
                 (Some b))) ∧
    @xgb_fit Toy.collaborators
      (XGBPipeline.hyperparameters Toy.pipeline0
       ∪ clf_params Toy.classifier0)
      Toy.dataset [0; 1; 0; 1; 0; 1; 0]%Z = Ok b.
Proof.
  destruct (self_optimize_target_column (H:=Toy.collaborators)
              1 Toy.dataset ∅ Toy.world0 Toy.pipeline0 0 Toy.classifier0
              Toy.dataset (Toy.labels Toy.dataset)
              eq_refl eq_refl eq_refl eq_refl) as (_ & Hfit & _).
  destruct (Hfit [0; 1; 0; 1; 0; 1; 0]%Z _ eq_refl eq_refl)
    as (σ' & E & _ & Hc).
  eexists σ', _. split; [exact E|]. split; [exact Hc | reflexivity].
Defined.

(** ** The finalizer *)

Section Finalizer.
Context `{Collaborators}.

(** What a successful [Optimize(p).optimize(dataset)] has done. *)
Lemma tpcp_optimize_Ok p dataset kw l σ σ' :
  tpcp.optimize p dataset kw σ = (Ok l, σ') →
  ∃ pl c cl X gt y b c',
    heap σ !! p = Some (OPipeline pl) ∧
    classifier pl = VRef c ∧
    heap σ !! c = Some (OClassifier cl) ∧
    get_concat_dataset dataset (modality pl) = Ok (X, gt) ∧
    gt !! target_column (classification_type pl) = Some y ∧
    xgb_fit (XGBPipeline.hyperparameters pl ∪ clf_params cl) X y = Ok b ∧
    length (heap σ) ≤ l ∧ length (heap σ) ≤ c' ∧
    heap σ' !! l =
      Some (OPipeline
              (XGBPipeline.set_classifier (VRef c')
                 (cloned_from pl (VRef (length (heap σ)))))) ∧
    heap σ' !! c' =
      Some (OClassifier
              (mkClassifier
                 (XGBPipeline.hyperparameters pl ∪ clf_params cl)
                 (Some b))) ∧
    storage σ' = storage σ ∧
    (∀ i, i < length (heap σ) → heap σ' !! i = heap σ !! i).
Proof.
  intros E.
  pose proof (optimize_heap_only (λ _, False) (length (heap σ))
                p dataset kw σ (le_n _)) as HH.
  rewrite E in HH. destruct HH as ([_ Hfr] & Hst & _).
  simpl in Hfr, Hst.
  unfold tpcp.optimize in E.
  apply bind_Ok in E as (l1 & σ1 & E1 & E).
  apply clone_Ok in E1 as (pl & v & news & Hp & Hh & -> & _ & Hv).
  apply self_optimize_Ok in E
    as (p1 & c1 & cl1 & X & gt & y & b & Hp1 & Hc1 & Hcl1 & Hd & Hy & Hb
        & -> & ->).
  rewrite Hh in Hp1, Hcl1.
  rewrite app_assoc, <- length_app, lookup_snoc in Hp1.
  injection Hp1 as <-. simpl in Hc1, Hd, Hy, Hb. subst v.
  destruct Hv as [(c & cl & Hc & Hcl & [= ->] & ->)|(Hn & Hv & _)];
    [|by destruct (Hn c1)].
  simpl in Hcl1.
  assert (cl1 = cl) as ->.
  { rewrite lookup_app_r, Nat.sub_diag in Hcl1 by lia.
    by injection Hcl1. }
  assert (length (heap σ1) = length (heap σ) + 2) as Hlen.
  { rewrite Hh, !length_app. simpl. lia. }
  exists pl, c, cl, X, gt, y, b, (length (heap σ1)). simpl in *.
  split_and!; try done.
  - lia.
  - lia.
  - apply list_lookup_insert_eq. rewrite length_app. simpl. lia.
  - rewrite list_lookup_insert_ne by lia. apply lookup_snoc.
  - intros i Hi. apply Hfr; [done | tauto].
Qed.
End Finalizer.

Section FinalizerOptuna.
Context `{Collaborators}.

Lemma create_study_Ok d name seed url pr s σ σ' :
  optuna.create_study d name seed url true pr σ = (Ok s, σ') →
  s = optuna.mkStudy (url, name) d seed pr ∧
  heap σ' = heap σ ∧
  trials_of (url, name) σ' = trials_of (url, name) σ ∧
  (∀ key, key ≠ (url, name) → storage σ' !! key = storage σ !! key).
Proof.
  unfold optuna.create_study, trials_of.
  destruct (storage σ !! (url, name)) eqn:E; intros [= <- <-]; simpl.
  - rewrite E. by split_and!.
  - rewrite lookup_insert_eq. split_and!; try done.
    intros key Hk. by rewrite lookup_insert_ne.
Qed.

Lemma best_params_Ok s bp σ σ' :
  optuna.best_params s σ = (Ok bp, σ') →
  σ' = σ ∧
  ∃ bt, optuna.best_trial (optuna.direction s)
          (trials_of (optuna.study_key s) σ) = Some bt ∧
        bp = params bt.
Proof.
  unfold optuna.best_params, bind, get_trials, trials_of.
  destruct (optuna.best_trial _ _) as [bt|]; [|discriminate].
  intros [= <- <-]. eauto.
Qed.

Lemma hyperparameters_update kw v p w :
  XGBPipeline.hyperparameters
    (tpcp.update_params (<["classifier" := v]> kw) (cloned_from p w))
  = XGBPipeline.hyperparameters (tpcp.update_params kw p).
Proof.
  unfold XGBPipeline.hyperparameters, tpcp.update_params. simpl.
  by rewrite !lookup_insert_ne by done.
Qed.

Lemma hyperparameters_cloned p v :
  XGBPipeline.hyperparameters (cloned_from p v)
  = XGBPipeline.hyperparameters p.
Proof. done. Qed.

Lemma hyperparameters_set_classifier p v :
  XGBPipeline.hyperparameters (XGBPipeline.set_classifier v p)
  = XGBPipeline.hyperparameters p.
Proof. done. Qed.

(** What a successful [XGBOptuna.optimize] has done. *)
Lemma optimize_Ok self dataset kw σ self' σ' template :
  heap σ !! XGBOptuna.pipeline self = Some (OPipeline template) →
  XGBOptuna.optimize self dataset kw σ = (Ok self', σ') →
  let key := study_identity get_db_path (XGBOptuna.modality self)
               (XGBOptuna.classification_type self) in
  ∃ σs bt clf l pl c X gt y b,
    let ctor :=
      constructor_params (XGBOptuna.classification_type self) (params bt)
      ∪ xgb_defaults in
    search_phase self dataset σ = (Ok tt, σs) ∧
    length (heap σs) ≤ clf ∧ length (heap σs) ≤ l ∧
    length (heap σs) ≤ c ∧ storage σ' = storage σs ∧
    optuna.best_trial optuna.maximize (trials_of key σ') = Some bt ∧
    dom (params bt) ⊆ tpcp.param_names ∧
    length (heap σ) ≤ clf ∧
    heap σ' !! clf = Some (OClassifier (mkClassifier ctor None)) ∧
    self' = XGBOptuna.set_optimized_pipeline_ l self ∧
    length (heap σ) ≤ l ∧
    heap σ' !! l = Some (OPipeline pl) ∧
    modality pl = modality template ∧
    classification_type pl = classification_type template ∧
    XGBPipeline.hyperparameters pl =
      XGBPipeline.hyperparameters (tpcp.update_params (params bt) template) ∧
    classifier pl = VRef c ∧
    length (heap σ) ≤ c ∧ c ≠ clf ∧
    heap σ' !! c =
      Some (OClassifier
              (mkClassifier (XGBPipeline.hyperparameters pl ∪ ctor)
                 (Some b))) ∧
    get_concat_dataset dataset (modality template) = Ok (X, gt) ∧
    gt !! target_column (classification_type template) = Some y ∧
    xgb_fit (XGBPipeline.hyperparameters pl ∪ ctor) X y = Ok b ∧
    (∀ i, i < length (heap σ) → heap σ' !! i = heap σ !! i).
Proof.
  intros Hp E key. unfold XGBOptuna.optimize in E.
  assert (XGBOptuna.pipeline self < length (heap σ)) as Hlt
    by (by eapply lookup_lt_Some).
  (* the study *)
  apply bind_Ok in E as (s & σ1 & E1 & E).
  pose proof E1 as E1'.
  apply create_study_Ok in E1' as (-> & Hh1 & _ & _).
  set (s := optuna.mkStudy _ _ _ _) in *.
  (* the search *)
  apply bind_Ok in E as ([] & σ2 & E2 & E).
  assert (search_phase self dataset σ = (Ok tt, σ2)) as Hsearch.
  { unfold search_phase. by rewrite (bind_eq _ _ _ _ _ E1). }
  pose proof (search_frames (λ _, False) (length (heap σ)) s self dataset 1
                σ1 ltac:(by rewrite Hh1)) as HF.
  rewrite E2 in HF. destruct HF as [Hlen2 Hfr2]. simpl in Hlen2, Hfr2.
  rewrite Hh1 in Hlen2, Hfr2. clear E2 E1.
  (* the best trial *)
  apply bind_Ok in E as (bp & σ3 & E3 & E).
  pose proof E3 as E3'.
  apply best_params_Ok in E3' as (-> & bt & Hbt & ->). simpl in Hbt.
  (* the classifier *)
  apply bind_Ok in E as (clf & σ4 & E4 & E).
  assert (params bt !! "objective" = None ∨
          XGBOptuna.classification_type self ≠ "binary") as Hobj.
  { case_decide; [left | by right].
    rewrite (bind_eq _ _ _ _ _ E3) in E4.
    unfold XGBClassifier.__init__objective in E4.
    by destruct (params bt !! "objective"). }
  assert (clf = length (heap σ2) ∧
          σ4 = mkWorld
                 (heap σ2 ++
                  [OClassifier
                     (mkClassifier
                        (constructor_params
                           (XGBOptuna.classification_type self) (params bt)
                         ∪ xgb_defaults)
                        None)])
                 (storage σ2)) as [-> ->].
  { unfold constructor_params. case_decide;
      rewrite (bind_eq _ _ _ _ _ E3) in E4.
    - unfold XGBClassifier.__init__objective in E4.
      destruct (params bt !! "objective"); [discriminate|].
      by apply alloc_Ok in E4.
    - by apply alloc_Ok in E4. }
  clear E4.
  set (ctor := constructor_params _ _ ∪ xgb_defaults) in *.
  remember (mkWorld (heap σ2 ++ [OClassifier (mkClassifier ctor None)])
              (storage σ2)) as σ4 eqn:Hσ4.
  assert (heap σ4 = heap σ2 ++ [OClassifier (mkClassifier ctor None)])
    as Hh4 by (by subst).
  assert (storage σ4 = storage σ2) as Hs4 by (by subst).
  assert (length (heap σ4) = length (heap σ2) + 1) as L4.
  { rewrite Hh4, length_app. simpl. lia. }
  clear Hσ4.
  (* the new pipeline *)
  apply bind_Ok in E as (cloned & σ5 & E5 & E).
  apply clone_Ok in E5 as (p & v & news & Hp5 & Hh5 & Hcloned & Hs5 & _).
  rewrite Hh4, lookup_app_l, Hfr2, Hp in Hp5 by (lia || tauto).
  injection Hp5 as <-.
  assert (length (heap σ5) = length (heap σ4) + length news + 1) as L5.
  { rewrite Hh5, !length_app. simpl. lia. }
  apply bind_Ok in E as (configured & σ6 & E6 & E).
  apply set_params_Ok in E6 as (p6 & Hp6 & Hdom & -> & Hσ6).
  rewrite Hh5, app_assoc, Hcloned, <- length_app, lookup_snoc in Hp6.
  injection Hp6 as <-.
  set (kwargs := <["classifier" := VRef (length (heap σ2))]> (params bt))
    in *.
  assert (heap σ6 =
            <[cloned := OPipeline
                (tpcp.update_params kwargs (cloned_from template v))]>
              (heap σ5)) as Hh6 by (by subst σ6).
  assert (storage σ6 = storage σ5) as Hs6 by (by subst σ6).
  assert (length (heap σ6) = length (heap σ5)) as L6.
  { by rewrite Hh6, length_insert. }
  clear Hσ6.
  assert (∀ i, i < length (heap σ4) → heap σ6 !! i = heap σ4 !! i)
    as Hold.
  { intros i Hi. rewrite Hh6, list_lookup_insert_ne by lia.
    rewrite Hh5. by apply lookup_app_l. }
  (* the fit on the whole dataset *)
  apply bind_Ok in E as (l & σ7 & E7 & E).
  apply ret_Ok in E as [-> ->].
  apply tpcp_optimize_Ok in E7
    as (pl6 & c6 & cl6 & X & gt & y & b & c' & Hpl6 & Hc6 & Hcl6 & Hd & Hy
        & Hb & Hl & Hc' & Hlook & Hlookc & Hst & Hfr7).
  rewrite Hh6, list_lookup_insert_eq in Hpl6 by lia.
  injection Hpl6 as <-.
  simpl in Hc6. unfold kwargs in Hc6. rewrite lookup_insert_eq in Hc6.
  simpl in Hc6. injection Hc6 as <-.
  rewrite Hold, Hh4, lookup_snoc in Hcl6 by lia.
  injection Hcl6 as <-. simpl in Hd, Hy, Hb.
  unfold kwargs in Hb. rewrite hyperparameters_update in Hb.
  assert (dom (params bt) ⊆ tpcp.param_names) as Hdom'.
  { intros k Hk. apply Hdom. unfold kwargs. rewrite dom_insert.
    set_solver. }
  exists σ2, bt, (length (heap σ2)), l,
    (XGBPipeline.set_classifier (VRef c')
       (cloned_from (tpcp.update_params kwargs (cloned_from template v))
          (VRef (length (heap σ6))))), c', X, gt, y, b.
  cbv zeta.
  fold ctor.
  split_and!.
  - exact Hsearch.
  - lia.
  - lia.
  - lia.
  - by rewrite Hst, Hs6, Hs5, Hs4.
  - unfold trials_of. rewrite Hst, Hs6, Hs5, Hs4. exact Hbt.
  - exact Hdom'.
  - lia.
  - rewrite Hfr7, Hold, Hh4 by lia. apply lookup_snoc.
  - reflexivity.
  - lia.
  - exact Hlook.
  - reflexivity.
  - reflexivity.
  - rewrite hyperparameters_set_classifier, hyperparameters_cloned.
    apply hyperparameters_update.
  - reflexivity.
  - lia.
  - lia.
  - rewrite Hlookc. cbn [clf_params].
    rewrite hyperparameters_set_classifier, hyperparameters_cloned.
    unfold kwargs. rewrite hyperparameters_update. reflexivity.
  - exact Hd.
  - exact Hy.
  - rewrite hyperparameters_set_classifier, hyperparameters_cloned.
    unfold kwargs. rewrite hyperparameters_update. exact Hb.
  - intros i Hi. rewrite Hfr7, Hold, Hh4 by lia.
    rewrite lookup_app_l by lia. apply Hfr2; [done | tauto].
Qed.
End FinalizerOptuna.

Section BestModel.
Context `{Collaborators}.

Lemma hyperparameters_of_update kw p k v :
  kw !! k = Some v → k ∈ hyperparameter_names →
  XGBPipeline.hyperparameters (tpcp.update_params kw p) !! k = Some v.
Proof.
  intros Hk Hin. unfold hyperparameter_names in Hin.
  unfold XGBPipeline.hyperparameters, tpcp.update_params. simpl.
  repeat (apply elem_of_union in Hin as [Hin|Hin]);
    apply elem_of_singleton in Hin; subst k;
    rewrite ?lookup_insert_ne by done;
    rewrite lookup_insert_eq, Hk; done.
Qed.

Lemma param_names_split k :
  k ∈ tpcp.param_names → k ≠ "classifier" → k ∈ hyperparameter_names.
Proof.
  unfold tpcp.param_names, hyperparameter_names. set_solver.
Qed.

End BestModel.

(** ** No validation of hyperparameter values *)

(** C3 (amended): assigning hyperparameter values to a pipeline checks
    nothing about them.  [__init__] stores every argument as given, and
    [_set_classifier_params] succeeds on every pipeline and classifier
    and hands the eight stored values to the classifier unchanged,
    whatever their type or magnitude; the remaining parameters and the
    trained state of the classifier are kept. *)
Theorem hyperparameters_stored_unchecked `{Collaborators}
    (modality : list string)
    (n_estimators max_depth reg_alpha reg_lambda min_child_weight gamma
     learning_rate colsample_bytree classifier : pyval)
    (classification_type : string)
    (σ : world) (self c : loc) (cl : XGBClassifier) :
  let p :=
    XGBPipeline.__init__ modality n_estimators max_depth reg_alpha
      reg_lambda min_child_weight gamma learning_rate colsample_bytree
      classifier classification_type in
  heap σ !! self = Some (OPipeline p) →
  heap σ !! c = Some (OClassifier cl) →
  ∃ σ' cl',
    XGBPipeline._set_classifier_params self c σ = (Ok c, σ') ∧
    heap σ' !! c = Some (OClassifier cl') ∧
    clf_params cl' !! "n_estimators" = Some n_estimators ∧
    clf_params cl' !! "max_depth" = Some max_depth ∧
    clf_params cl' !! "reg_alpha" = Some reg_alpha ∧
    clf_params cl' !! "reg_lambda" = Some reg_lambda ∧
    clf_params cl' !! "min_child_weight" = Some min_child_weight ∧
    clf_params cl' !! "gamma" = Some gamma ∧
    clf_params cl' !! "learning_rate" = Some learning_rate ∧
    clf_params cl' !! "colsample_bytree" = Some colsample_bytree ∧
    (∀ k, k ∉ hyperparameter_names →
       clf_params cl' !! k = clf_params cl !! k) ∧
    clf_booster cl' = clf_booster cl.
Proof.
  intros p Hp Hc. unfold XGBPipeline._set_classifier_params.
  rewrite (bind_eq _ _ _ _ _ (get_pipeline_eq _ _ _ Hp)).
  rewrite (clf_set_params_eq _ _ _ _ Hc).
  eexists _, _. split; [done|]. simpl.
  split; [apply list_lookup_insert_eq; by eapply lookup_lt_Some|].
  simpl. unfold XGBPipeline.hyperparameters. simpl.
  split_and!; try done;
    try (apply lookup_union_Some_l; rewrite ?lookup_insert_ne by done;
         apply lookup_insert_eq).
  intros k Hk. apply lookup_union_r.
  unfold hyperparameter_names in Hk.
  rewrite !lookup_insert_ne, lookup_empty; set_solver.
Qed.

(** C3 (as stated, refuted): a pipeline built with a string for
    [n_estimators] and with [max_depth = -3], both outside every declared
    range, is accepted, and [_set_classifier_params] passes the two
    values on to the classifier without any failure. *)
Lemma malformed_hyperparameters_accepted :
  let σ := Toy.malformed_world in
  within_declared "n_estimators" (VStr "many") = false ∧
  within_declared "max_depth" (VInt (-3)) = false ∧
  ∃ (σ' : @world Toy.collaborators) (cl : @XGBClassifier Toy.collaborators),
    XGBPipeline._set_classifier_params 1 0 σ = (Ok 0, σ') ∧
    heap σ' !! 0 = Some (OClassifier cl) ∧
    clf_params cl !! "n_estimators" = Some (VStr "many") ∧
    clf_params cl !! "max_depth" = Some (VInt (-3)).
Proof.
  split; [reflexivity|]. split; [reflexivity|].
  eexists _, _. split; [vm_compute; reflexivity|].
  split; [vm_compute; reflexivity|].
  split; vm_compute; reflexivity.
Qed.

Lemma hyperparameters_stored_unchecked_witness :
  ∃ (σ' : @world Toy.collaborators) (cl' : @XGBClassifier Toy.collaborators),
    XGBPipeline._set_classifier_params 1 0 Toy.malformed_world = (Ok 0, σ') ∧
    heap σ' !! 0 = Some (OClassifier cl') ∧
    clf_params cl' !! "n_estimators" = Some (VStr "many") ∧
    clf_params cl' !! "max_depth" = Some (VInt (-3)) ∧
    clf_params cl' !! "reg_alpha" = Some (VInt 0) ∧
    clf_params cl' !! "reg_lambda" = Some (VInt 0) ∧
    clf_params cl' !! "min_child_weight" = Some (VInt 0) ∧
    clf_params cl' !! "gamma" = Some (VFloat 0) ∧
    clf_params cl' !! "learning_rate" = Some VNone ∧
    clf_params cl' !! "colsample_bytree" = Some (VFloat (1 # 10)) ∧
    (∀ k : string, k ∉ hyperparameter_names →
       clf_params cl' !! k
       = clf_params
           (@mkClassifier Toy.collaborators {[ "n_jobs" := VInt (-1) ]} None)
         !! k) ∧
    clf_booster cl' = None.
Proof.
  apply (hyperparameters_stored_unchecked ["acc"] (VStr "many") (VInt (-3))
           (VInt 0) (VInt 0) (VInt 0) (VFloat 0) VNone (VFloat (1 # 10))
           (VRef 0) "binary" Toy.malformed_world 1 0
           (@mkClassifier Toy.collaborators {[ "n_jobs" := VInt (-1) ]} None));
    reflexivity.
Defined.

(** ** The draws of a trial *)

Section Draws.
Context `{Collaborators}.

Lemma suggest_int_run t name low high σ :
  (low ≤ high)%Z →
  ∃ σ',
    optuna.suggest_int t name low high σ =
      (Ok (sample_int (optuna.sampler_seed (optuna.study t))
             (trials_of (optuna.study_key (optuna.study t)) σ)
             name low high), σ').
Proof.
  intros Hle. unfold optuna.suggest_int.
  rewrite decide_False by lia. by eexists.
Qed.

Lemma suggest_float_run t name low high σ :
  (low <= high)%Q →
  ∃ σ',
    optuna.suggest_float t name low high σ =
      (Ok (sample_float (optuna.sampler_seed (optuna.study t))
             (trials_of (optuna.study_key (optuna.study t)) σ)
             name low high), σ').
Proof.
  intros Hle. unfold optuna.suggest_float.
  destruct (Qlt_le_dec high low) as [Hlt|_]; [|by eexists].
  exfalso. by apply (Qlt_not_le _ _ Hlt).
Qed.
End Draws.

(** The next draw of [paras_to_be_searched] is run. *)
Ltac draw :=
  lazymatch goal with
  | |- context [bind (optuna.suggest_int ?t ?name ?lo ?hi) _ ?s] =>
      let σ' := fresh "σ" in
      let E := fresh "E" in
      destruct (suggest_int_run t name lo hi s ltac:(lia)) as [σ' E];
      rewrite (bind_eq _ _ _ _ _ E); clear E
  | |- context [bind (optuna.suggest_float ?t ?name ?lo ?hi) _ ?s] =>
      let σ' := fresh "σ" in
      let E := fresh "E" in
      destruct (suggest_float_run t name lo hi s
                  ltac:(unfold Qle; simpl; lia)) as [σ' E];
      rewrite (bind_eq _ _ _ _ _ E); clear E
  end.

(** C9: for a sampler that draws inside the range it is asked for, the
    eight draws of a trial always succeed and give a dictionary with
    exactly the eight hyperparameter names, each value inside its search
    range: integers for [n_estimators] in [200, 400], [max_depth] in
    [5, 25], [reg_alpha], [reg_lambda] and [min_child_weight] in
    [0, 25] and [gamma] in [5, 25], floats for [learning_rate] in
    [0.01, 0.1] and [colsample_bytree] in [0.1, 1]. *)
Theorem sampled_within_search_ranges `{Collaborators}
    (trial : optuna.Trial) (σ : world) :
  (∀ seed ts name low high, (low ≤ high)%Z →
     (low ≤ sample_int seed ts name low high ≤ high)%Z) →
  (∀ seed ts name low high, (low <= high)%Q →
     (low <= sample_float seed ts name low high)%Q ∧
     (sample_float seed ts name low high <= high)%Q) →
  ∃ paras σ',
    XGBOptuna.paras_to_be_searched trial σ = (Ok paras, σ') ∧
    in_search_ranges paras ∧
    dom paras = hyperparameter_names.
Proof.
  intros Hint Hfloat. unfold XGBOptuna.paras_to_be_searched.
  do 8 draw.
  eexists _, _. split; [reflexivity|]. split.
  - unfold in_search_ranges, int_in, float_in.
    split_and!; eexists;
      (split; [rewrite ?lookup_insert_ne by done; apply lookup_insert_eq|]);
      first [apply Hint; lia | apply Hfloat; unfold Qle; simpl; lia].
  - unfold hyperparameter_names. rewrite !dom_insert_L, dom_empty_L.
    set_solver.
Qed.

Lemma sampled_within_search_ranges_witness :
  ∃ paras (σ' : @world Toy.collaborators),
    XGBOptuna.paras_to_be_searched Toy.trial0 Toy.logged_world
      = (Ok paras, σ') ∧
    in_search_ranges paras ∧
    dom paras = hyperparameter_names.
Proof.
  apply (sampled_within_search_ranges (H:=Toy.collaborators)
           Toy.trial0 Toy.logged_world).
  - intros seed ts name low high Hle. simpl. lia.
  - intros seed ts name low high Hle. simpl.
    split; [apply Qle_refl | exact Hle].
Defined.

(** ** The objective of a trial *)

Section Objective.
Context `{Collaborators}.

Lemma run_folds_length p folds kw scoring rs σ σ' :
  tpcp.run_folds p folds kw scoring σ = (Ok rs, σ') →
  length rs = length folds.
Proof.
  revert rs σ σ'. induction folds as [|[train test] rest IH];
    intros rs σ σ' E; simpl in E.
  - by apply ret_Ok in E as [-> _].
  - apply bind_Ok in E as (o & σ1 & _ & E).
    apply bind_Ok in E as (f & σ2 & _ & E).
    apply bind_Ok in E as (s & σ3 & _ & E).
    apply bind_Ok in E as (ss & σ4 & E4 & E).
    apply ret_Ok in E as [-> _]. simpl. f_equal. by eapply IH.
Qed.

Lemma results_getitem_Ok results m l σ σ' :
  tpcp.results_getitem results ("test_" +:+ m) σ = (Ok l, σ') →
  results ≠ [] ∧
  mapM (λ s : gmap string Q, s !! m) results = Some l ∧ σ' = σ.
Proof.
  unfold tpcp.results_getitem.
  change (tpcp.strip_prefix "test_" ("test_" +:+ m)) with (Some m).
  destruct results as [|r rs]; [discriminate|].
  destruct (mapM _ _) as [l'|]; [|discriminate].
  by intros [= <- <-].
Qed.
End Objective.

(** C6: when the objective of a trial returns a value, that value is the
    arithmetic mean of the per-fold values of the metric [mcc] (found
    under [test_mcc]), one value per fold of the 5-fold cross-validation
    run on the clone of the template that was configured with the
    trial's draws. *)
Theorem objective_is_mean_of_folds `{Collaborators}
    (self : XGBOptuna.t) (dataset : Dataset) (trial : optuna.Trial)
    (σ σ' : world) (v : Q) :
  XGBOptuna.objective self dataset trial σ = (Ok v, σ') →
  ∃ paras σ1 cloned σ2 σ3 results folds splits,
    XGBOptuna.paras_to_be_searched trial σ = (Ok paras, σ1) ∧
    tpcp.clone (XGBOptuna.pipeline self) σ1 = (Ok cloned, σ2) ∧
    tpcp.set_params cloned paras σ2 = (Ok cloned, σ3) ∧
    tpcp.cross_validate cloned dataset 5
      (<["early_stopping_rounds" := VInt 10]>
       (<["pruning_callback" :=
            VCallback (optuna.trial_number trial) "test_mcc"]> ∅))
      (XGBOptuna.score_function self) σ3 = (Ok results, σ') ∧
    kfold 5 dataset = Ok splits ∧
    length results = length splits ∧
    mapM (λ s : gmap string Q, s !! "mcc") results = Some folds ∧
    length folds = length results ∧
    v = mean folds ∧
    (v * inject_Z (Z.of_nat (length folds)) == Qsum folds)%Q.
Proof.
  unfold XGBOptuna.objective. intros E.
  apply bind_Ok in E as (paras & σ1 & E1 & E).
  apply bind_Ok in E as (cloned & σ2 & E2 & E).
  apply bind_Ok in E as (temp & σ3 & E3 & E).
  pose proof (set_params_Ok _ _ _ _ _ E3) as (_ & _ & _ & -> & _).
  apply bind_Ok in E as (results & σ4 & E4 & E).
  apply bind_Ok in E as (folds & σ5 & E5 & E).
  apply ret_Ok in E as [-> ->].
  apply (results_getitem_Ok results "mcc") in E5 as (Hne & Hfolds & ->).
  pose proof E4 as E4'. unfold tpcp.cross_validate in E4'.
  apply bind_Ok in E4' as (splits & σ6 & E6 & E7).
  apply lift_Ok in E6 as [Hk ->].
  apply run_folds_length in E7.
  pose proof (length_mapM _ _ _ Hfolds) as Hlen.
  exists paras, σ1, cloned, σ2, σ3, results, folds, splits.
  split_and!.
  - exact E1.
  - exact E2.
  - exact E3.
  - exact E4.
  - exact Hk.
  - exact E7.
  - exact Hfolds.
  - symmetry. exact Hlen.
  - reflexivity.
  - unfold mean. destruct folds as [|x xs].
    + by destruct results.
    + rewrite Qmult_comm. apply Qmult_div_r.
      unfold Qeq, inject_Z. cbn [Qnum Qden length]. lia.
Qed.

Lemma objective_is_mean_of_folds_witness :
  ∃ folds : list Q,
    length folds = 5 ∧
    (XGBOptuna.objective (H:=Toy.collaborators) (Toy.searcher "binary")
       Toy.dataset Toy.trial0 Toy.world0).1 = Ok (mean folds).
Proof.
  destruct (objective_is_mean_of_folds (H:=Toy.collaborators)
              (Toy.searcher "binary") Toy.dataset Toy.trial0 Toy.world0
              (XGBOptuna.objective (Toy.searcher "binary") Toy.dataset
                 Toy.trial0 Toy.world0).2
              (80 # 160)%Q)
    as (paras & σ1 & cloned & σ2 & σ3 & results & folds & splits & _ & _ & _
        & _ & Hk & Hr & _ & Hf & Hv & _).
  { apply outcome_Ok. vm_compute. reflexivity. }
  exists folds. split.
  - rewrite Hf, Hr. injection Hk as <-. reflexivity.
  - rewrite <- Hv. vm_compute. reflexivity.
Defined.

(** ** Isolation of clones *)

Section Isolation.
Context `{Collaborators}.

(** The predictions of a pipeline are read off its own object and the
    object of its classifier. *)
Lemma predictions_eq pipeline datapoint σ :
  predictions pipeline datapoint σ =
    match heap σ !! pipeline with
    | Some (OPipeline p) =>
        match get_features datapoint (modality p) with
        | Ok X =>
            match classifier p with
            | VRef c =>
                match heap σ !! c with
                | Some (OClassifier cl) =>
                    match clf_booster cl with
                    | Some b => Ok (xgb_predict b X)
                    | None => Raise NotFittedError
                    end
                | _ => Raise (AttributeError "not an XGBClassifier")
                end
            | _ => Raise (AttributeError "not an XGBClassifier")
            end
        | Raise e => Raise e
        end
    | _ => Raise (AttributeError "not an XGBPipeline")
    end.
Proof.
  unfold predictions, XGBPipeline.run, XGBClassifier.predict.
  unfold bind at 1 2. unfold get_pipeline at 1.
  destruct (heap σ !! pipeline) as [[cl|p]|] eqn:Hp; [done| |done].
  unfold lift, bind at 1.
  destruct (get_features datapoint (modality p)) as [X|e]; [|done].
  unfold bind at 1 2. unfold get_classifier.
  destruct (classifier p) as [| | | |c|]; try done.
  destruct (heap σ !! c) as [[cl|p']|]; try done.
  destruct (clf_booster cl) as [b|]; [|done].
  unfold ret at 1. unfold bind at 1. unfold get_pipeline at 1.
  rewrite Hp. unfold put, bind at 1. unfold ret at 1.
  unfold bind, get_pipeline. cbn [heap].
  rewrite list_lookup_insert_eq by (by eapply lookup_lt_Some).
  reflexivity.
Qed.

Lemma predictions_agree pipeline datapoint σ σ' :
  heap σ' !! pipeline = heap σ !! pipeline →
  (∀ p c, heap σ !! pipeline = Some (OPipeline p) →
     classifier p = VRef c → heap σ' !! c = heap σ !! c) →
  predictions pipeline datapoint σ' = predictions pipeline datapoint σ.
Proof.
  intros Hp Hc. rewrite !predictions_eq, Hp.
  destruct (heap σ !! pipeline) as [[cl|p]|] eqn:E; try reflexivity.
  destruct (get_features _ _); [|reflexivity].
  destruct (classifier p) as [| | | |c|] eqn:Ec; try reflexivity.
  by rewrite (Hc p c eq_refl Ec).
Qed.

(** Fitting the pipeline [a] changes no prediction of another pipeline
    [b] whose classifier is an existing object other than [a]. *)
Lemma fit_preserves_other a b dataset kwargs datapoint σ :
  a ≠ b → b < length (heap σ) →
  (∀ p c, heap σ !! b = Some (OPipeline p) → classifier p = VRef c →
     c < length (heap σ) ∧ c ≠ a) →
  predictions b datapoint (XGBPipeline.self_optimize a dataset kwargs σ).2
  = predictions b datapoint σ.
Proof.
  intros Hne Hb Hc.
  destruct (self_optimize_heap_only (λ l, l = a) (length (heap σ))
              a dataset kwargs (or_introl eq_refl) σ (le_n _))
    as ([_ Hfr] & _ & _).
  apply predictions_agree.
  - apply Hfr; [exact Hb | congruence].
  - intros p c Hp Hcp. destruct (Hc p c Hp Hcp) as [Hlt Hca].
    by apply Hfr.
Qed.
End Isolation.

(** C8: evaluating a trial leaves every object that existed before it as
    it was, the template pipeline and its classifier among them: the
    trial works on a clone, and so does every fold of its
    cross-validation.  For two clones of one template, fitting the first
    does not change what the second predicts, and fitting the second
    afterwards does not change what the fitted first predicts; neither
    fit changes an object that existed before the clones were made. *)
Theorem trial_works_on_clones `{Collaborators}
    (self : XGBOptuna.t) (dataset dataset_a dataset_b datapoint : Dataset)
    (trial : optuna.Trial) (kwargs : gmap string pyval)
    (template a b r : loc) (σ σ1 σ2 σ3 : world) :
  tpcp.clone template σ = (Ok a, σ1) →
  tpcp.clone template σ1 = (Ok b, σ2) →
  XGBPipeline.self_optimize a dataset_a kwargs σ2 = (Ok r, σ3) →
  let σ4 := (XGBPipeline.self_optimize b dataset_b kwargs σ3).2 in
  (∀ l, l < length (heap σ) →
     heap (XGBOptuna.objective self dataset trial σ).2 !! l = heap σ !! l) ∧
  predictions b datapoint σ3 = predictions b datapoint σ2 ∧
  predictions a datapoint σ4 = predictions a datapoint σ3 ∧
  (∀ l, l < length (heap σ) → heap σ4 !! l = heap σ !! l).
Proof.
  intros Ea Eb Efit σ4.
  apply clone_Ok in Ea as (p & va & na & Hp & Hh1 & -> & _ & Hva).
  apply clone_Ok in Eb as (p' & vb & nb & Hp' & Hh2 & -> & _ & Hvb).
  assert (length na ≤ 1) as Hna.
  { destruct Hva as [(? & ? & _ & _ & _ & ->)|(_ & _ & ->)]; simpl; lia. }
  assert (length nb ≤ 1) as Hnb.
  { destruct Hvb as [(? & ? & _ & _ & _ & ->)|(_ & _ & ->)]; simpl; lia. }
  assert (length (heap σ1) = length (heap σ) + length na + 1) as L1.
  { rewrite Hh1, !length_app. simpl. lia. }
  assert (length (heap σ2) = length (heap σ1) + length nb + 1) as L2.
  { rewrite Hh2, !length_app. simpl. lia. }
  set (a := length (heap σ) + length na) in *.
  set (b := length (heap σ1) + length nb) in *.
  assert (heap σ2 !! b = Some (OPipeline (cloned_from p' vb))) as Hb.
  { rewrite Hh2, app_assoc. unfold b. rewrite <- length_app.
    apply lookup_snoc. }
  assert (∀ c, vb = VRef c → c = length (heap σ1)) as Hvb'.
  { intros c Hc.
    destruct Hvb as [(x & y & _ & _ & Hv & _)|(Hno & Hv & _)].
    - rewrite Hc in Hv. by injection Hv.
    - rewrite Hv in Hc. by destruct (Hno c). }
  split; [|split; [|split]].
  - intros l Hl.
    destruct (objective_frames (λ _, False) (length (heap σ))
                self dataset trial σ (le_n _)) as [_ Hfr].
    apply Hfr; [exact Hl | tauto].
  - replace σ3 with (XGBPipeline.self_optimize a dataset_a kwargs σ2).2
      by (by rewrite Efit).
    apply fit_preserves_other; [lia | lia |].
    intros q c Hq Hc. rewrite Hb in Hq. injection Hq as <-.
    simpl in Hc. apply Hvb' in Hc as ->. lia.
  - pose proof Efit as Efit'.
    apply self_optimize_Ok in Efit'
      as (pa & ca & cla & X & gt & y & bo & Hpa & _ & _ & _ & _ & _ & _
          & Hσ3).
    assert (length (heap σ3) = length (heap σ2) + 1) as L3.
    { rewrite Hσ3. cbn [heap]. rewrite length_insert, length_app.
      simpl. lia. }
    assert (heap σ3 !! a =
              Some (OPipeline
                      (XGBPipeline.set_classifier
                         (VRef (length (heap σ2))) pa))) as Ha3.
    { rewrite Hσ3. cbn [heap]. apply list_lookup_insert_eq.
      rewrite length_app. simpl. lia. }
    apply fit_preserves_other; [lia | lia |].
    intros q c Hq Hc. rewrite Ha3 in Hq. injection Hq as <-.
    simpl in Hc. injection Hc as <-. lia.
  - intros l Hl.
    destruct (self_optimize_heap_only (λ l, l = b) (length (heap σ))
                b dataset_b kwargs (or_introl eq_refl) σ3)
      as ([_ Hfr4] & _ & _).
    { apply self_optimize_Ok in Efit as (? & ? & ? & ? & ? & ? & ? & _ & _
        & _ & _ & _ & _ & _ & ->).
      cbn [heap]. rewrite length_insert, length_app. lia. }
    fold σ4 in Hfr4. rewrite Hfr4 by lia.
    destruct (self_optimize_heap_only (λ l, l = a) (length (heap σ))
                a dataset_a kwargs (or_introl eq_refl) σ2 ltac:(lia))
      as ([_ Hfr3] & _ & _).
    rewrite Efit in Hfr3. cbn [snd] in Hfr3. rewrite Hfr3 by lia.
    rewrite Hh2, lookup_app_l by lia.
    rewrite Hh1, lookup_app_l by lia. reflexivity.
Qed.

Lemma trial_works_on_clones_witness :
  predictions (H:=Toy.collaborators) 5 Toy.dataset Toy.world3
    = predictions 5 Toy.dataset Toy.world2 ∧
  predictions 3 Toy.dataset
    (XGBPipeline.self_optimize 5 Toy.dataset ∅ Toy.world3).2
    = predictions 3 Toy.dataset Toy.world3 ∧
  heap (XGBPipeline.self_optimize 5 Toy.dataset ∅ Toy.world3).2 !! 1
    = heap Toy.world0 !! 1.
Proof.
  destruct (trial_works_on_clones (H:=Toy.collaborators)
              (Toy.searcher "binary") Toy.dataset Toy.dataset Toy.dataset
              Toy.dataset Toy.trial0 ∅ 1 3 5 3
              Toy.world0 Toy.world1 Toy.world2 Toy.world3)
    as (_ & Hb & Ha & Hold).
  - vm_compute. reflexivity.
  - vm_compute. reflexivity.
  - vm_compute. reflexivity.
  - split_and!; [exact Hb | exact Ha |]. apply Hold. vm_compute. lia.
Defined.

(** ** The study log *)

Section Log.
Context `{Collaborators}.

Lemma update_trial_logged t f key old ft σ :
  logged key old ft σ →
  optuna.study_key (optuna.study t) = key →
  optuna.trial_number t = length old →
  optuna.update_trial t f σ =
    (Ok tt, mkWorld (heap σ) (<[key := old ++ [f ft]]> (storage σ))).
Proof.
  unfold logged, optuna.update_trial, bind, get_trials, set_trials.
  intros Hs -> ->. rewrite Hs. unfold default. cbn [from_option id].
  rewrite alter_app_r_alt by lia. by rewrite Nat.sub_diag.
Qed.

Lemma running_refl key old σ t : logged key old t σ → running key old σ t σ t.
Proof. by intros ?. Qed.

Lemma running_update key old σ0 t0 σ ft f :
  running key old σ0 t0 σ ft →
  number (f ft) = number ft → state (f ft) = state ft →
  value (f ft) = value ft →
  running key old σ0 t0
    (mkWorld (heap σ) (<[key := old ++ [f ft]]> (storage σ))) (f ft).
Proof.
  intros (Hh & Hl & Ho & Hn & Hs & Hv) Hn' Hs' Hv'.
  unfold running, logged. cbn [heap storage].
  split_and!; try congruence.
  - apply lookup_insert_eq.
  - intros k Hk. rewrite lookup_insert_ne by done. by apply Ho.
Qed.

Lemma suggest_int_running t name low high key old σ0 t0 σ ft :
  (low ≤ high)%Z →
  optuna.study_key (optuna.study t) = key →
  optuna.trial_number t = length old →
  running key old σ0 t0 σ ft →
  ∃ v σ',
    optuna.suggest_int t name low high σ = (Ok v, σ') ∧
    running key old σ0 t0 σ' (optuna.set_params_of name (VInt v) ft).
Proof.
  intros Hle Hk Hn Hr. unfold optuna.suggest_int.
  rewrite decide_False by lia.
  unfold bind at 1. unfold get_trials at 1.
  destruct Hr as (Hh & Hl & Hrest).
  rewrite (bind_eq _ _ _ _ _
             (update_trial_logged t _ key old ft σ Hl Hk Hn)).
  eexists _, _. split; [reflexivity|].
  by apply running_update.
Qed.

Lemma suggest_float_running t name low high key old σ0 t0 σ ft :
  (low <= high)%Q →
  optuna.study_key (optuna.study t) = key →
  optuna.trial_number t = length old →
  running key old σ0 t0 σ ft →
  ∃ v σ',
    optuna.suggest_float t name low high σ = (Ok v, σ') ∧
    running key old σ0 t0 σ' (optuna.set_params_of name (VFloat v) ft).
Proof.
  intros Hle Hk Hn Hr. unfold optuna.suggest_float.
  destruct (Qlt_le_dec high low) as [Hlt|_].
  { exfalso. by apply (Qlt_not_le _ _ Hlt). }
  unfold bind at 1. unfold get_trials at 1.
  destruct Hr as (Hh & Hl & Hrest).
  rewrite (bind_eq _ _ _ _ _
             (update_trial_logged t _ key old ft σ Hl Hk Hn)).
  eexists _, _. split; [reflexivity|].
  by apply running_update.
Qed.

(** The eight draws of a running trial are recorded with it. *)
Lemma paras_running t key old σ ft :
  optuna.study_key (optuna.study t) = key →
  optuna.trial_number t = length old →
  logged key old ft σ →
  ∃ paras σ' ft',
    XGBOptuna.paras_to_be_searched t σ = (Ok paras, σ') ∧
    running key old σ ft σ' ft' ∧
    dom (params ft') = hyperparameter_names ∪ dom (params ft).
Proof.
  intros Hk Hn Hl. apply running_refl in Hl.
  unfold XGBOptuna.paras_to_be_searched.
  destruct (suggest_int_running t "n_estimators" 200 400 _ _ _ _ _ _
              ltac:(lia) Hk Hn Hl) as (v1 & σ1 & E1 & R1).
  rewrite (bind_eq _ _ _ _ _ E1). clear E1 Hl.
  destruct (suggest_int_running t "max_depth" 5 25 _ _ _ _ _ _
              ltac:(lia) Hk Hn R1) as (v2 & σ2 & E2 & R2).
  rewrite (bind_eq _ _ _ _ _ E2). clear E2 R1.
  destruct (suggest_int_running t "reg_alpha" 0 25 _ _ _ _ _ _
              ltac:(lia) Hk Hn R2) as (v3 & σ3 & E3 & R3).
  rewrite (bind_eq _ _ _ _ _ E3). clear E3 R2.
  destruct (suggest_int_running t "reg_lambda" 0 25 _ _ _ _ _ _
              ltac:(lia) Hk Hn R3) as (v4 & σ4 & E4 & R4).
  rewrite (bind_eq _ _ _ _ _ E4). clear E4 R3.
  destruct (suggest_int_running t "min_child_weight" 0 25 _ _ _ _ _ _
              ltac:(lia) Hk Hn R4) as (v5 & σ5 & E5 & R5).
  rewrite (bind_eq _ _ _ _ _ E5). clear E5 R4.
  destruct (suggest_int_running t "gamma" 5 25 _ _ _ _ _ _
              ltac:(lia) Hk Hn R5) as (v6 & σ6 & E6 & R6).
  rewrite (bind_eq _ _ _ _ _ E6). clear E6 R5.
  destruct (suggest_float_running t "learning_rate" (1 # 100) (1 # 10)
              _ _ _ _ _ _ ltac:(unfold Qle; simpl; lia) Hk Hn R6)
    as (v7 & σ7 & E7 & R7).
  rewrite (bind_eq _ _ _ _ _ E7). clear E7 R6.
  destruct (suggest_float_running t "colsample_bytree" (1 # 10) 1
              _ _ _ _ _ _ ltac:(unfold Qle; simpl; lia) Hk Hn R7)
    as (v8 & σ8 & E8 & R8).
  rewrite (bind_eq _ _ _ _ _ E8). clear E8 R7.
  eexists _, σ8, _. split; [reflexivity|]. split; [exact R8|].
  cbn [params optuna.set_params_of]. rewrite !dom_insert_L.
  unfold hyperparameter_names. set_solver.
Qed.

Lemma bind_storage_tail {A B} (m : M A) (f : A → M B) σ :
  (∀ a, heap_only (λ _, True) 0 (f a) (λ _, True)) →
  storage (bind m f σ).2 = storage (m σ).2.
Proof.
  intros Hf. unfold bind. destruct (m σ) as [[a|e] σ1]; [|done].
  by destruct (Hf a σ1 (Nat.le_0_l _)) as (_ & Hs & _).
Qed.

Lemma bind_storage_tail_trials {A B} (m : M A) (f : A → M B) σ key :
  (∀ a, heap_only (λ _, True) 0 (f a) (λ _, True)) →
  trials_of key (bind m f σ).2 = trials_of key (m σ).2.
Proof. intros Hf. unfold trials_of. by rewrite bind_storage_tail. Qed.

Lemma heap_only_best_params W n s :
  heap_only W n (optuna.best_params s) (λ _, True).
Proof.
  intros σ _. unfold optuna.best_params, bind, get_trials.
  destruct (optuna.best_trial _ _); cbn;
    (split; [apply heap_frame_refl | done]).
Qed.

(** After its draws the objective leaves the log alone. *)
Lemma objective_storage self dataset t σ :
  storage (XGBOptuna.objective self dataset t σ).2
  = storage (XGBOptuna.paras_to_be_searched t σ).2.
Proof.
  unfold XGBOptuna.objective. apply bind_storage_tail. intros paras.
  heap_step; [apply clone_heap_only|]. tidy.
  heap_step; [apply set_params_heap_only; by left|]. tidy.
  heap_step; [apply cross_validate_heap_only|].
  heap_step; [apply results_getitem_heap_only|].
  by apply (heap_only_ret _ _ _ (λ _, True)).
Qed.

(** One trial adds one finished record to the log, whatever the
    outcome of the objective. *)
Lemma run_trial_log s self dataset σ old :
  storage σ !! optuna.study_key s = Some old →
  ∃ t,
    logged (optuna.study_key s) old t
      (optuna.run_trial s (XGBOptuna.objective self dataset) σ).2 ∧
    number t = length old ∧ state t ≠ Running ∧
    dom (params t) = hyperparameter_names ∧
    (∀ k, k ≠ optuna.study_key s →
       storage (optuna.run_trial s (XGBOptuna.objective self dataset) σ).2
         !! k = storage σ !! k).
Proof.
  intros Hs. unfold optuna.run_trial.
  set (t0 := mkTrial (length old) Running None ∅).
  set (h := optuna.mkHandle s (length old)).
  set (σa := mkWorld (heap σ)
               (<[optuna.study_key s := old ++ [t0]]> (storage σ))).
  assert (optuna.ask s σ = (Ok h, σa)) as Ea.
  { unfold optuna.ask, bind, get_trials, set_trials, ret. by rewrite Hs. }
  rewrite (bind_eq _ _ _ _ _ Ea).
  assert (logged (optuna.study_key s) old t0 σa) as Hl
    by apply lookup_insert_eq.
  destruct (paras_running h _ old σa t0 eq_refl eq_refl Hl)
    as (paras & σp & t8 & Ep & (Hhp & Hlp & Hop & Hnp & Hsp & Hvp) & Hdom).
  set (σb := (XGBOptuna.objective self dataset h σa).2).
  assert (logged (optuna.study_key s) old t8 σb) as Hlb.
  { unfold logged, σb. rewrite objective_storage, Ep. exact Hlp. }
  assert (∀ k, k ≠ optuna.study_key s →
            storage σb !! k = storage σ !! k) as Hob.
  { intros k Hk. unfold σb. rewrite objective_storage, Ep. cbn [snd].
    rewrite Hop by done. unfold σa. cbn [storage].
    by rewrite lookup_insert_ne. }
  assert (attempt (XGBOptuna.objective self dataset h) σa =
            (Ok (XGBOptuna.objective self dataset h σa).1, σb)) as Et
    by reflexivity.
  rewrite (bind_eq _ _ _ _ _ Et).
  assert (∀ st v, st ≠ Running →
    ∃ t,
      optuna.tell h st v σb =
        (Ok tt, mkWorld (heap σb)
                  (<[optuna.study_key s := old ++ [t]]> (storage σb))) ∧
      number t = length old ∧ state t ≠ Running ∧
      dom (params t) = hyperparameter_names) as Htell.
  { intros st v Hst. exists (optuna.set_outcome st v t8). split.
    - exact (update_trial_logged h _ _ old t8 σb Hlb eq_refl eq_refl).
    - cbn. split_and!; [by rewrite Hnp | done |].
      rewrite Hdom. cbn. set_solver. }
  assert (∀ (r : result unit * world) t,
    r.2 = mkWorld (heap σb)
            (<[optuna.study_key s := old ++ [t]]> (storage σb)) →
    logged (optuna.study_key s) old t r.2 ∧
    (∀ k, k ≠ optuna.study_key s → storage r.2 !! k = storage σ !! k))
    as Hfin.
  { intros r t ->. split; [apply lookup_insert_eq|].
    intros k Hk. cbn [storage]. rewrite lookup_insert_ne by done.
    by apply Hob. }
  destruct ((XGBOptuna.objective self dataset h σa).1) as [v|e].
  - destruct (Htell Complete (Some v) ltac:(done))
      as (t & -> & Hn & Hst & Hd).
    exists t. destruct (Hfin (Ok tt, _) t eq_refl).
    by split_and!.
  - assert (∀ st, st ≠ Running →
      ∃ t,
        logged (optuna.study_key s) old t
          (bind (optuna.tell h st None) (λ _, raise (A:=unit) e) σb).2 ∧
        number t = length old ∧ state t ≠ Running ∧
        dom (params t) = hyperparameter_names ∧
        (∀ k, k ≠ optuna.study_key s →
           storage (bind (optuna.tell h st None)
                      (λ _, raise (A:=unit) e) σb).2 !! k
           = storage σ !! k)) as Hraise.
    { intros st Hst'.
      destruct (Htell st None Hst') as (t & Et' & Hn & Hst & Hd).
      exists t. rewrite (bind_eq _ _ _ _ _ Et'). unfold raise. cbn [snd].
      destruct (Hfin (Raise e, _) t eq_refl). by split_and!. }
    destruct e; try exact (Hraise Fail ltac:(done)).
    destruct (Htell Pruned None ltac:(done)) as (t & -> & Hn & Hst & Hd).
    exists t. destruct (Hfin (Ok tt, _) t eq_refl).
    by split_and!.
Qed.
End Log.

Section LogOptimize.
Context `{Collaborators}.

Lemma create_study_run d name seed url pr σ :
  ∃ σ1,
    optuna.create_study d name seed url true pr σ =
      (Ok (optuna.mkStudy (url, name) d seed pr), σ1) ∧
    storage σ1 !! (url, name) = Some (trials_of (url, name) σ) ∧
    (∀ k, k ≠ (url, name) → storage σ1 !! k = storage σ !! k).
Proof.
  unfold optuna.create_study, trials_of.
  destruct (storage σ !! (url, name)) as [ts|] eqn:E.
  - exists σ. by rewrite E.
  - eexists. split; [reflexivity|]. cbn [storage default from_option].
    split; [apply lookup_insert_eq|].
    intros k Hk. by rewrite lookup_insert_ne.
Qed.

(** What follows the search in [XGBOptuna.optimize] leaves the log
    alone. *)
Lemma finalizer_heap_only self dataset optimize_params s :
  heap_only (λ _, True) 0
    (let* best_parameters := optuna.best_params s in
     let* clf :=
       (if decide (XGBOptuna.classification_type self = "binary") then
          let* kwargs := optuna.best_params s in
          XGBClassifier.__init__objective "binary:logistic" kwargs
        else
          let* kwargs := optuna.best_params s in
          XGBClassifier.__init__ kwargs) in
     let best_parameters := <["classifier" := VRef clf]> best_parameters in
     let* cloned := tpcp.clone (XGBOptuna.pipeline self) in
     let* configured := tpcp.set_params cloned best_parameters in
     let* optimized := tpcp.optimize configured dataset optimize_params in
     ret (XGBOptuna.set_optimized_pipeline_ optimized self))
    (λ _, True).
Proof.
  heap_step; [apply heap_only_best_params|].
  heap_step.
  { case_decide; (heap_step; [apply heap_only_best_params|]);
      [apply init_objective_heap_only | apply init_heap_only]. }
  cbv zeta.
  heap_step; [apply clone_heap_only|].
  heap_step; [apply set_params_heap_only; by left|].
  heap_step; [apply optimize_heap_only|].
  by apply heap_only_ret.
Qed.
End LogOptimize.

(** C1 (amended): one call of [XGBOptuna.optimize] runs exactly one new
    trial, whatever it is given: whether the call returns or raises, the
    log of its study is the log from before followed by one record,
    numbered after the ones already there, no longer running, and
    holding the eight sampled hyperparameters; the logs of other studies
    are not touched.  The number of trials is the constant 1 of line
    155. *)
Theorem optimize_runs_one_trial `{Collaborators}
    (self : XGBOptuna.t) (dataset : Dataset)
    (optimize_params : gmap string pyval) (σ : world) :
  let key := study_identity get_db_path (XGBOptuna.modality self)
               (XGBOptuna.classification_type self) in
  let σ' := (XGBOptuna.optimize self dataset optimize_params σ).2 in
  ∃ t,
    trials_of key σ' = trials_of key σ ++ [t] ∧
    number t = length (trials_of key σ) ∧
    state t ≠ Running ∧
    dom (params t) = hyperparameter_names ∧
    (∀ k, k ≠ key → storage σ' !! k = storage σ !! k).
Proof.
  intros key σ'. subst σ'. unfold XGBOptuna.optimize.
  destruct (create_study_run optuna.maximize
              ("XGBoostOptuna" +:+ join "|" (XGBOptuna.modality self))
              (XGBOptuna.seed self)
              ("sqlite:////" +:+ get_db_path +:+ "/xgb_"
                 +:+ join "_" (XGBOptuna.modality self) +:+ "_"
                 +:+ XGBOptuna.classification_type self +:+ ".db")
              optuna.MedianPruner σ) as (σ1 & E1 & Hs1 & Ho1).
  cbv zeta. rewrite (bind_eq _ _ _ _ _ E1).
  set (s := optuna.mkStudy _ _ _ _) in *.
  rewrite bind_storage_tail_trials
    by (intros; apply finalizer_heap_only).
  change (optuna.optimize s (XGBOptuna.objective self dataset) 1)
    with (bind (optuna.run_trial s (XGBOptuna.objective self dataset))
            (λ _, optuna.optimize s (XGBOptuna.objective self dataset) 0)).
  rewrite bind_storage_tail_trials
    by (intros; by apply heap_only_ret).
  destruct (run_trial_log s self dataset σ1 _ Hs1)
    as (t & Hl & Hn & Hst & Hd & Ho).
  exists t. unfold logged in Hl.
  split_and!.
  - unfold trials_of at 1. change key with (optuna.study_key s).
    rewrite Hl. reflexivity.
  - exact Hn.
  - exact Hst.
  - exact Hd.
  - intros k Hk. rewrite bind_storage_tail
      by (intros; apply finalizer_heap_only).
    change (optuna.optimize s (XGBOptuna.objective self dataset) 1)
      with (bind (optuna.run_trial s (XGBOptuna.objective self dataset))
              (λ _, optuna.optimize s (XGBOptuna.objective self dataset) 0)).
    rewrite bind_storage_tail by (intros; by apply heap_only_ret).
    change key with (optuna.study_key s) in Hk.
    rewrite Ho by exact Hk. by apply Ho1.
Qed.

(** C1 (as stated, refuted): a search configured for 3 trials leaves one
    new trial record in the log, not 3: nothing passed to
    [XGBOptuna.optimize] reaches the trial count. *)
Lemma configured_trial_count_ignored :
  let key := study_identity "/tmp/db" ["acc"; "hr"] "binary" in
  let σ' :=
    (XGBOptuna.optimize (Toy.searcher "binary") Toy.dataset
       {[ "n_trials" := VInt 3 ]} Toy.world0).2 in
  length (trials_of key σ') = length (trials_of key Toy.world0) + 1 ∧
  length (trials_of key σ') ≠ length (trials_of key Toy.world0) + 3.
Proof. vm_compute. split; [reflexivity | discriminate]. Qed.

(** * Further properties of the pipeline *)

Section Run.
Context `{Collaborators}.

(** [run] on a pipeline whose classifier exists and whose features can
  be read: the outcome is decided by the trained state of the
  classifier. *)
Lemma run_eq self datapoint σ p X c cl :
heap σ !! self = Some (OPipeline p) →
get_features datapoint (modality p) = Ok X →
classifier p = VRef c →
heap σ !! c = Some (OClassifier cl) →
XGBPipeline.run self datapoint σ =
  match clf_booster cl with
  | Some b =>
      (Ok self,
       mkWorld
         (<[self := OPipeline
                      (XGBPipeline.set_classification_ (xgb_predict b X) p)]>
            (heap σ))
         (storage σ))
  | None => (Raise NotFittedError, σ)
  end.
Proof.
intros Hp HX Hc Hcl. unfold XGBPipeline.run.
rewrite (bind_eq _ _ _ _ _ (get_pipeline_eq _ _ _ Hp)).
rewrite (bind_eq _ _ σ X σ) by (unfold lift; by rewrite HX).
unfold XGBClassifier.predict. rewrite Hc.
destruct (clf_booster cl) as [b|] eqn:Eb.
- rewrite (bind_eq _ _ σ (xgb_predict b X) σ).
  2:{ rewrite (bind_eq _ _ _ _ _ (get_classifier_eq _ _ _ Hcl)).
      by rewrite Eb. }
  by rewrite (bind_eq _ _ _ _ _ (get_pipeline_eq _ _ _ Hp)).
- rewrite (bind_raise _ _ σ NotFittedError σ); [done|].
  rewrite (bind_eq _ _ _ _ _ (get_classifier_eq _ _ _ Hcl)).
  by rewrite Eb.
Qed.
End Run.



(** X2: [run] on a pipeline whose classifier has never been fitted fails
    with [NotFittedError] and changes nothing: no attribute is written
    and [classification_] keeps its previous value. *)
Theorem run_before_fit_fails `{Collaborators}
    (self c : loc) (datapoint : Dataset) (σ : world) (p : XGBPipeline)
    (X : Features) (cl : XGBClassifier) :
  heap σ !! self = Some (OPipeline p) →
  get_features datapoint (modality p) = Ok X →
  classifier p = VRef c →
  heap σ !! c = Some (OClassifier cl) →
  clf_booster cl = None →
  XGBPipeline.run self datapoint σ = (Raise NotFittedError, σ).
Proof.
  intros Hp HX Hc Hcl Hb.
  by rewrite (run_eq _ _ _ _ _ _ _ Hp HX Hc Hcl), Hb.
Qed.

Lemma run_before_fit_fails_witness :
  XGBPipeline.run (H:=Toy.collaborators) 1 Toy.dataset Toy.world0
    = (Raise NotFittedError, Toy.world0).
Proof.
  apply (run_before_fit_fails (H:=Toy.collaborators) 1 0 Toy.dataset
           Toy.world0 Toy.pipeline0 Toy.dataset Toy.classifier0);
    reflexivity.
Defined.

(** X3: after a successful [self_optimize], [run] on the same pipeline
    succeeds for every datapoint whose features can be read, and the
    predictions it stores are those of the booster trained by
    [self_optimize] on the whole dataset. *)
Theorem fitted_pipeline_predicts `{Collaborators}
    (self r : loc) (dataset datapoint : Dataset)
    (kwargs : gmap string pyval) (σ σ' : world) (p : XGBPipeline)
    (X' : Features) :
  heap σ !! self = Some (OPipeline p) →
  XGBPipeline.self_optimize self dataset kwargs σ = (Ok r, σ') →
  get_features datapoint (modality p) = Ok X' →
  ∃ c cl X gt y b σ'' p'',
    classifier p = VRef c ∧
    heap σ !! c = Some (OClassifier cl) ∧
    get_concat_dataset dataset (modality p) = Ok (X, gt) ∧
    gt !! target_column (classification_type p) = Some y ∧
    xgb_fit (XGBPipeline.hyperparameters p ∪ clf_params cl) X y = Ok b ∧
    XGBPipeline.run r datapoint σ' = (Ok self, σ'') ∧
    heap σ'' !! self = Some (OPipeline p'') ∧
    classification_ p'' = Some (xgb_predict b X') ∧
    predictions self datapoint σ' = Ok (xgb_predict b X').
Proof.
  intros Hp E HX.
  apply self_optimize_Ok in E
    as (p0 & c & cl & X & gt & y & b & Hp0 & Hc & Hcl & Hd & Hy & Hb & ->
        & ->).
  rewrite Hp in Hp0. injection Hp0 as <-.
  assert (self < length (heap σ)) as Hlt by (by eapply lookup_lt_Some).
  set (σ' := mkWorld _ _).
  assert (heap σ' !! self =
            Some (OPipeline
                    (XGBPipeline.set_classifier (VRef (length (heap σ))) p)))
    as Hp'.
  { apply list_lookup_insert_eq. rewrite length_app. simpl. lia. }
  assert (heap σ' !! length (heap σ) =
            Some (OClassifier
                    (mkClassifier
                       (XGBPipeline.hyperparameters p ∪ clf_params cl)
                       (Some b)))) as Hcl'.
  { unfold σ'. cbn [heap]. rewrite list_lookup_insert_ne by lia.
    apply lookup_snoc. }
  exists c, cl, X, gt, y, b.
  eexists _, _. split_and!.
  - exact Hc.
  - exact Hcl.
  - exact Hd.
  - exact Hy.
  - exact Hb.
  - rewrite (run_eq self datapoint σ' _ X' _ _ Hp' HX eq_refl Hcl').
    reflexivity.
  - cbn [heap]. apply list_lookup_insert_eq. unfold σ'. cbn [heap].
    rewrite length_insert, length_app. simpl. lia.
  - reflexivity.
  - rewrite predictions_eq, Hp'.
    cbn [modality classifier XGBPipeline.set_classifier].
    rewrite HX, Hcl'. reflexivity.
Qed.

Lemma fitted_pipeline_predicts_witness :
  predictions (H:=Toy.collaborators) 3 Toy.dataset Toy.world3
    = Ok [0; 0; 0; 0; 0; 0; 0]%Z.
Proof.
  destruct (fitted_pipeline_predicts (H:=Toy.collaborators) 3 3 Toy.dataset
              Toy.dataset ∅ Toy.world2 Toy.world3
              (cloned_from Toy.pipeline0 (VRef 2)) Toy.dataset)
    as (c & cl & X & gt & y & b & σ'' & p'' & _ & _ & _ & _ & Hb & _ & _ & _
        & Hpred).
  - vm_compute. reflexivity.
  - unfold Toy.world3. apply outcome_Ok. vm_compute. reflexivity.
  - reflexivity.
  - rewrite Hpred. reflexivity.
Defined.

(** X4: [self_optimize] never trains the classifier the pipeline holds:
    it trains a copy (line 56).  Whatever the outcome, the classifier
    the pipeline held before is unchanged, and so is every other object
    except the pipeline; and when the call fails (target column
    missing, or the training run raises) the pipeline itself is
    unchanged too, still holding its previous classifier. *)
Theorem self_optimize_trains_a_copy `{Collaborators}
    (self c : loc) (dataset : Dataset) (kwargs : gmap string pyval)
    (σ : world) (p : XGBPipeline) (cl : XGBClassifier)
    (X : Features) (gt : gmap string (list Z)) :
  heap σ !! self = Some (OPipeline p) →
  classifier p = VRef c →
  heap σ !! c = Some (OClassifier cl) →
  get_concat_dataset dataset (modality p) = Ok (X, gt) →
  let out := XGBPipeline.self_optimize self dataset kwargs σ in
  heap out.2 !! c = Some (OClassifier cl) ∧
  (∀ l, l < length (heap σ) → l ≠ self → heap out.2 !! l = heap σ !! l) ∧
  (∀ e, out.1 = Raise e → heap out.2 !! self = Some (OPipeline p)) ∧
  (∀ r, out.1 = Ok r →
     ∃ c', length (heap σ) ≤ c' ∧
       heap out.2 !! self
         = Some (OPipeline (XGBPipeline.set_classifier (VRef c') p))).
Proof.
  intros Hp Hc Hcl Hd out. subst out.
  assert (self < length (heap σ)) as Hlt by (by eapply lookup_lt_Some).
  assert (c < length (heap σ)) as Hclt by (by eapply lookup_lt_Some).
  assert (c ≠ self) as Hne by (intros ->; congruence).
  rewrite (self_optimize_run _ _ _ _ _ _ _ _ _ Hp Hc Hcl Hd). cbv zeta.
  destruct (gt !! target_column (classification_type p)) as [y|].
  - destruct (xgb_fit _ X y) as [b|e]; cbn [fst snd heap].
    + split_and!.
      * rewrite list_lookup_insert_ne by done.
        rewrite lookup_app_l by done. exact Hcl.
      * intros l Hl Hls. rewrite list_lookup_insert_ne by done.
        by rewrite lookup_app_l.
      * discriminate.
      * intros r _. exists (length (heap σ)). split; [done|].
        apply list_lookup_insert_eq. rewrite length_app. simpl. lia.
    + split_and!.
      * rewrite lookup_app_l by done. exact Hcl.
      * intros l Hl _. by rewrite lookup_app_l.
      * intros _ _. rewrite lookup_app_l by done. exact Hp.
      * discriminate.
  - cbn [fst snd heap]. split_and!.
    + rewrite lookup_app_l by done. exact Hcl.
    + intros l Hl _. by rewrite lookup_app_l.
    + intros _ _. rewrite lookup_app_l by done. exact Hp.
    + discriminate.
Qed.

Lemma self_optimize_trains_a_copy_witness :
  heap (XGBPipeline.self_optimize (H:=Toy.collaborators) 1 Toy.dataset ∅
          Toy.world0).2 !! 0
    = Some (OClassifier Toy.classifier0).
Proof.
  destruct (self_optimize_trains_a_copy (H:=Toy.collaborators) 1 0
              Toy.dataset ∅ Toy.world0 Toy.pipeline0 Toy.classifier0
              Toy.dataset (Toy.labels Toy.dataset)
              eq_refl eq_refl eq_refl eq_refl) as (Hc & _).
  exact Hc.
Defined.

Section FitOptions.
Context `{Collaborators}.

Lemma bind_ext {A B} (m m' : M A) (k k' : A → M B) σ :
m σ = m' σ → (∀ a σ', k a σ' = k' a σ') → bind m k σ = bind m' k' σ.
Proof.
unfold bind. intros -> Hk. destruct (m' σ) as [[a|e] σ']; [apply Hk|done].
Qed.

Lemma run_folds_fit_options p folds kw kw' scoring σ :
tpcp.run_folds p folds kw scoring σ = tpcp.run_folds p folds kw' scoring σ.
Proof.
revert σ. induction folds as [|[train test] rest IH]; intros σ.
- reflexivity.
- cbn [tpcp.run_folds].
  apply bind_ext; [reflexivity|]. intros o σ1.
  apply bind_ext; [reflexivity|]. intros f σ2.
  apply bind_ext; [reflexivity|]. intros s σ3.
  apply bind_ext; [apply IH|reflexivity].
Qed.
End FitOptions.

(** X5: the fit options have no effect.  [self_optimize] accepts keyword
    arguments and never reads them, so the early-stopping rounds and the
    pruning callback that the objective hands to the cross-validation
    (line 130) change nothing: with any other options the fit and the
    whole cross-validation give the same result and the same world. *)
Theorem fit_options_have_no_effect `{Collaborators}
    (self pipeline : loc) (dataset : Dataset) (cv : nat)
    (options options' : gmap string pyval) (scoring : tpcp.Scorer)
    (σ : world) :
  XGBPipeline.self_optimize self dataset options σ
    = XGBPipeline.self_optimize self dataset options' σ ∧
  tpcp.cross_validate pipeline dataset cv options scoring σ
    = tpcp.cross_validate pipeline dataset cv options' scoring σ.
Proof.
  split; [reflexivity|].
  unfold tpcp.cross_validate.
  apply bind_ext; [reflexivity|]. intros folds σ1.
  apply run_folds_fit_options.
Qed.

(** * Further properties of the search *)

Section Finalizer.
Context `{Collaborators}.

Lemma hyperparameters_dom p :
dom (XGBPipeline.hyperparameters p) = hyperparameter_names.
Proof.
unfold XGBPipeline.hyperparameters, hyperparameter_names.
rewrite !dom_insert_L, dom_empty_L. set_solver.
Qed.

(** The search phase is the first part of [XGBOptuna.optimize]; what
  follows it is the finalizer. *)
Lemma optimize_after_search self dataset optimize_params σ r σs :
search_phase self dataset σ = (r, σs) →
XGBOptuna.optimize self dataset optimize_params σ =
  match r with
  | Ok _ =>
      let s :=
        optuna.mkStudy
          (study_identity get_db_path (XGBOptuna.modality self)
             (XGBOptuna.classification_type self))
          optuna.maximize (XGBOptuna.seed self) optuna.MedianPruner in
      (let* best_parameters := optuna.best_params s in
       let* clf :=
         (if decide (XGBOptuna.classification_type self = "binary") then
            let* kwargs := optuna.best_params s in
            XGBClassifier.__init__objective "binary:logistic" kwargs
          else
            let* kwargs := optuna.best_params s in
            XGBClassifier.__init__ kwargs) in
       let best_parameters :=
         <["classifier" := VRef clf]> best_parameters in
       let* cloned := tpcp.clone (XGBOptuna.pipeline self) in
       let* configured := tpcp.set_params cloned best_parameters in
       let* optimized :=
         tpcp.optimize configured dataset optimize_params in
       ret (XGBOptuna.set_optimized_pipeline_ optimized self)) σs
  | Raise e => (Raise e, σs)
  end.
Proof.
unfold search_phase, XGBOptuna.optimize. cbv zeta.
destruct (create_study_run optuna.maximize
            ("XGBoostOptuna" +:+ join "|" (XGBOptuna.modality self))
            (XGBOptuna.seed self)
            ("sqlite:////" +:+ get_db_path +:+ "/xgb_"
               +:+ join "_" (XGBOptuna.modality self) +:+ "_"
               +:+ XGBOptuna.classification_type self +:+ ".db")
            optuna.MedianPruner σ) as (σ1 & E1 & _).
rewrite !(bind_eq _ _ _ _ _ E1).
intros E2. destruct r as [[]|e].
- rewrite (bind_eq _ _ _ _ _ E2). reflexivity.
- rewrite (bind_raise _ _ _ _ _ E2). reflexivity.
Qed.
End Finalizer.



(** X7: [XGBOptuna.optimize] builds nothing unless the search leaves a
    completed trial.  An exception of the search is raised unchanged,
    and a search that ends without any completed trial in the study
    (the only trial was pruned, say) makes [study.best_params] raise;
    in both cases the world is the one the search left: no classifier
    and no pipeline has been created. *)
Theorem optimize_needs_a_completed_trial `{Collaborators}
    (self : XGBOptuna.t) (dataset : Dataset)
    (optimize_params : gmap string pyval) (σ σs : world)
    (r : result unit) :
  search_phase self dataset σ = (r, σs) →
  (∀ e, r = Raise e →
     XGBOptuna.optimize self dataset optimize_params σ = (Raise e, σs)) ∧
  (r = Ok tt →
   optuna.best_trial optuna.maximize
     (trials_of (study_identity get_db_path (XGBOptuna.modality self)
                   (XGBOptuna.classification_type self)) σs) = None →
   XGBOptuna.optimize self dataset optimize_params σ
     = (Raise (ValueError "No trials are completed yet."), σs)).
Proof.
  intros Hs. rewrite (optimize_after_search _ _ _ _ _ _ Hs). split.
  - by intros e ->.
  - intros -> Hb. cbv zeta.
    apply bind_raise. unfold optuna.best_params.
    rewrite (bind_eq _ _ σs (trials_of (study_identity get_db_path
                                          (XGBOptuna.modality self)
                                          (XGBOptuna.classification_type self))
                               σs) σs) by reflexivity.
    cbn [optuna.direction]. by rewrite Hb.
Qed.

Lemma optimize_needs_a_completed_trial_witness :
  (XGBOptuna.optimize (H:=Toy.collaborators) Toy.pruned_searcher Toy.dataset
     ∅ Toy.world0).1
    = Raise (ValueError "No trials are completed yet.").
Proof.
  destruct (optimize_needs_a_completed_trial (H:=Toy.collaborators)
              Toy.pruned_searcher Toy.dataset ∅ Toy.world0
              (search_phase Toy.pruned_searcher Toy.dataset Toy.world0).2
              (Ok tt)) as [_ Hn].
  - apply outcome_Ok. vm_compute. reflexivity.
  - rewrite Hn; [reflexivity | reflexivity | vm_compute; reflexivity].
Defined.

(** * The record of a trial *)

Section Records.
Context `{Collaborators}.

(** The next draw of [paras_to_be_searched] is run on a trial whose
  record is known. *)
Local Ltac recorded_int name lo hi Hk Hn R :=
let v := fresh "v" in
let σ' := fresh "σ" in
let E := fresh "E" in
let R' := fresh "R" in
let σx := fresh "σx" in
let Ex := fresh "Ex" in
destruct (suggest_int_running _ name lo hi _ _ _ _ _ _
            ltac:(lia) Hk Hn R) as (v & σ' & E & R');
lazymatch type of E with
| optuna.suggest_int ?t _ _ _ ?s = _ =>
    destruct (suggest_int_run t name lo hi s ltac:(lia)) as [σx Ex]
end;
rewrite E in Ex; injection Ex as -> _;
rewrite (bind_eq _ _ _ _ _ E); clear E R.

Local Ltac recorded_float name lo hi Hk Hn R :=
let v := fresh "v" in
let σ' := fresh "σ" in
let E := fresh "E" in
let R' := fresh "R" in
let σx := fresh "σx" in
let Ex := fresh "Ex" in
destruct (suggest_float_running _ name lo hi _ _ _ _ _ _
            ltac:(unfold Qle; simpl; lia) Hk Hn R) as (v & σ' & E & R');
lazymatch type of E with
| optuna.suggest_float ?t _ _ _ ?s = _ =>
    destruct (suggest_float_run t name lo hi s
                ltac:(unfold Qle; simpl; lia)) as [σx Ex]
end;
rewrite E in Ex; injection Ex as -> _;
rewrite (bind_eq _ _ _ _ _ E); clear E R.

(** The eight draws of a new trial: the dictionary they give is the one
  recorded with the trial. *)
Lemma paras_recorded t key old σ ft :
optuna.study_key (optuna.study t) = key →
optuna.trial_number t = length old →
logged key old ft σ →
params ft = ∅ →
∃ paras σ' ft',
  XGBOptuna.paras_to_be_searched t σ = (Ok paras, σ') ∧
  running key old σ ft σ' ft' ∧
  params ft' = paras ∧
  dom paras = hyperparameter_names ∧
  (sampler_in_range → in_search_ranges paras).
Proof.
intros Hk Hn Hl He. apply running_refl in Hl.
unfold XGBOptuna.paras_to_be_searched.
recorded_int "n_estimators" 200%Z 400%Z Hk Hn Hl.
recorded_int "max_depth" 5%Z 25%Z Hk Hn R.
recorded_int "reg_alpha" 0%Z 25%Z Hk Hn R0.
recorded_int "reg_lambda" 0%Z 25%Z Hk Hn R.
recorded_int "min_child_weight" 0%Z 25%Z Hk Hn R0.
recorded_int "gamma" 5%Z 25%Z Hk Hn R.
recorded_float "learning_rate" (1 # 100)%Q (1 # 10)%Q Hk Hn R0.
recorded_float "colsample_bytree" (1 # 10)%Q 1%Q Hk Hn R.
eexists _, _, _. split; [reflexivity|]. split; [exact R0|].
split; [|split].
- cbn [params optuna.set_params_of]. rewrite He.
  apply map_eq. intros k. rewrite !lookup_insert.
  repeat (case_decide; simplify_eq/=); reflexivity.
- unfold hyperparameter_names. rewrite !dom_insert_L, dom_empty_L.
  set_solver.
- intros [Hint Hfloat]. unfold in_search_ranges, int_in, float_in.
  split_and!; eexists;
    (split; [rewrite ?lookup_insert_ne by done; apply lookup_insert_eq|]);
    first [apply Hint; lia | apply Hfloat; unfold Qle; simpl; lia].
Qed.

(** One trial: the record it leaves holds the hyperparameters that were
  drawn, and its final state tells how the objective ended. *)
Lemma run_trial_record s self dataset σ old :
storage σ !! optuna.study_key s = Some old →
let out := optuna.run_trial s (XGBOptuna.objective self dataset) σ in
∃ t,
  logged (optuna.study_key s) old t out.2 ∧
  dom (params t) = hyperparameter_names ∧
  (sampler_in_range → in_search_ranges (params t)) ∧
  ((state t = Complete ∧ is_Some (value t) ∧ out.1 = Ok tt) ∨
   (state t = Pruned ∧ value t = None ∧ out.1 = Ok tt) ∨
   (state t = Fail ∧ value t = None ∧
    ∃ e, out.1 = Raise e ∧ e ≠ TrialPruned)).
Proof.
intros Hs out. subst out. unfold optuna.run_trial.
set (t0 := mkTrial (length old) Running None ∅).
set (h := optuna.mkHandle s (length old)).
set (σa := mkWorld (heap σ)
             (<[optuna.study_key s := old ++ [t0]]> (storage σ))).
assert (optuna.ask s σ = (Ok h, σa)) as Ea.
{ unfold optuna.ask, bind, get_trials, set_trials, ret. by rewrite Hs. }
rewrite (bind_eq _ _ _ _ _ Ea).
assert (logged (optuna.study_key s) old t0 σa) as Hl
  by apply lookup_insert_eq.
destruct (paras_recorded h _ old σa t0 eq_refl eq_refl Hl eq_refl)
  as (paras & σp & t8 & Ep & (_ & Hlp & _) & Hpar & Hdom & Hrange).
set (σb := (XGBOptuna.objective self dataset h σa).2).
assert (logged (optuna.study_key s) old t8 σb) as Hlb.
{ unfold logged, σb. rewrite objective_storage, Ep. exact Hlp. }
assert (attempt (XGBOptuna.objective self dataset h) σa =
          (Ok (XGBOptuna.objective self dataset h σa).1, σb)) as Et
  by reflexivity.
rewrite (bind_eq _ _ _ _ _ Et).
assert (∀ st v,
  optuna.tell h st v σb =
    (Ok tt, mkWorld (heap σb)
              (<[optuna.study_key s := old ++ [optuna.set_outcome st v t8]]>
                 (storage σb)))) as Htell.
{ intros st v.
  exact (update_trial_logged h _ _ old t8 σb Hlb eq_refl eq_refl). }
assert (∀ st v,
  st = Fail ∨ st = Pruned ∨ st = Complete →
  logged (optuna.study_key s) old (optuna.set_outcome st v t8)
    (mkWorld (heap σb)
       (<[optuna.study_key s := old ++ [optuna.set_outcome st v t8]]>
          (storage σb))) ∧
  dom (params (optuna.set_outcome st v t8)) = hyperparameter_names ∧
  (sampler_in_range →
     in_search_ranges (params (optuna.set_outcome st v t8)))) as Hrec.
{ intros st v _. split; [apply lookup_insert_eq|].
  cbn [params optuna.set_outcome]. rewrite Hpar. by split. }
destruct ((XGBOptuna.objective self dataset h σa).1) as [v|e].
- rewrite Htell. eexists. split_and!; [by apply Hrec; auto..|].
  left. cbn. eauto.
- assert (e ≠ TrialPruned →
    ∃ t,
      logged (optuna.study_key s) old t
        (bind (optuna.tell h Fail None) (λ _, raise (A:=unit) e) σb).2 ∧
      dom (params t) = hyperparameter_names ∧
      (sampler_in_range → in_search_ranges (params t)) ∧
      state t = Fail ∧ value t = None ∧
      ∃ e', (bind (optuna.tell h Fail None)
               (λ _, raise (A:=unit) e) σb).1 = Raise e' ∧
            e' ≠ TrialPruned) as Hraise.
  { intros He. rewrite (bind_eq _ _ _ _ _ (Htell Fail None)).
    unfold raise. cbn [fst snd]. eexists.
    split_and!; [by apply Hrec; auto..|reflexivity|reflexivity|].
    by exists e. }
  destruct e;
    try (destruct Hraise as (t & ? & ? & ? & ? & ? & ?); [done|];
         exists t; split_and!; [done..|]; right; right; by split_and!).
  rewrite Htell. eexists. split_and!; [by apply Hrec; auto..|].
  right. left. by cbn.
Qed.

(** One call of [XGBOptuna.optimize]: the record it appends. *)
Lemma optimize_record self dataset optimize_params σ :
let key := study_identity get_db_path (XGBOptuna.modality self)
             (XGBOptuna.classification_type self) in
let out := XGBOptuna.optimize self dataset optimize_params σ in
∃ t,
  trials_of key out.2 = trials_of key σ ++ [t] ∧
  dom (params t) = hyperparameter_names ∧
  (sampler_in_range → in_search_ranges (params t)) ∧
  ((state t = Complete ∧ is_Some (value t)) ∨
   (state t = Pruned ∧ value t = None) ∨
   (state t = Fail ∧ value t = None ∧
    ∃ e, out.1 = Raise e ∧ e ≠ TrialPruned)).
Proof.
intros key out. subst out. unfold XGBOptuna.optimize.
destruct (create_study_run optuna.maximize
            ("XGBoostOptuna" +:+ join "|" (XGBOptuna.modality self))
            (XGBOptuna.seed self)
            ("sqlite:////" +:+ get_db_path +:+ "/xgb_"
               +:+ join "_" (XGBOptuna.modality self) +:+ "_"
               +:+ XGBOptuna.classification_type self +:+ ".db")
            optuna.MedianPruner σ) as (σ1 & E1 & Hs1 & Ho1).
cbv zeta. rewrite (bind_eq _ _ _ _ _ E1).
set (s := optuna.mkStudy _ _ _ _) in *.
rewrite bind_storage_tail_trials
  by (intros; apply finalizer_heap_only).
change (optuna.optimize s (XGBOptuna.objective self dataset) 1)
  with (bind (optuna.run_trial s (XGBOptuna.objective self dataset))
          (λ _, optuna.optimize s (XGBOptuna.objective self dataset) 0)).
rewrite bind_storage_tail_trials
  by (intros; by apply heap_only_ret).
destruct (run_trial_record s self dataset σ1 _ Hs1)
  as (t & Hl & Hdom & Hr & Hout).
exists t. unfold logged in Hl. split_and!.
- unfold trials_of at 1. change key with (optuna.study_key s).
  rewrite Hl. reflexivity.
- exact Hdom.
- exact Hr.
- destruct Hout as [(? & ? & _)|[(? & ? & _)|(? & ? & e & He & Hne)]];
    [by left | by right; left |].
  right. right. split_and!; [done..|]. exists e. split; [|done].
  destruct (optuna.run_trial s (XGBOptuna.objective self dataset) σ1)
    as [r σ2] eqn:Er.
  cbn [fst] in He. subst r.
  by rewrite (bind_raise _ _ _ _ _ (bind_raise _ _ _ _ _ Er)).
Qed.
End Records.

(** X8: every trial record that [XGBOptuna.optimize] appends to the log
    of its study holds hyperparameters inside the search ranges of lines
    109-116, whether the call returns or raises: with a sampler that
    draws inside the range it is asked for, the log never receives a
    record outside the ranges. *)
Theorem recorded_trial_within_search_ranges `{Collaborators}
    (self : XGBOptuna.t) (dataset : Dataset)
    (optimize_params : gmap string pyval) (σ : world) :
  sampler_in_range →
  let key := study_identity get_db_path (XGBOptuna.modality self)
               (XGBOptuna.classification_type self) in
  let σ' := (XGBOptuna.optimize self dataset optimize_params σ).2 in
  ∃ t,
    trials_of key σ' = trials_of key σ ++ [t] ∧
    in_search_ranges (params t).
Proof.
  intros Hsampler key σ'.
  destruct (optimize_record self dataset optimize_params σ)
    as (t & Hl & _ & Hr & _).
  exists t. split; [exact Hl | by apply Hr].
Qed.


Lemma recorded_trial_within_search_ranges_witness :
  let key := study_identity "/tmp/db" ["acc"; "hr"] "binary" in
  ∃ t,
    trials_of key
      (XGBOptuna.optimize (H:=Toy.collaborators) (Toy.searcher "binary")
         Toy.dataset ∅ Toy.world0).2
      = trials_of key Toy.world0 ++ [t] ∧
    in_search_ranges (params t).
Proof.
  apply (recorded_trial_within_search_ranges (H:=Toy.collaborators)
           (Toy.searcher "binary") Toy.dataset ∅ Toy.world0).
  split.
  - intros seed ts name low high Hle. cbn. lia.
  - intros seed ts name low high Hle. cbn. split; [apply Qle_refl|exact Hle].
Defined.

(** * A dataset that cannot be split *)

Section Split.
Context `{Collaborators}.

Lemma clone_run pipeline p c cl σ :
heap σ !! pipeline = Some (OPipeline p) →
classifier p = VRef c →
heap σ !! c = Some (OClassifier cl) →
∃ l σ',
  tpcp.clone pipeline σ = (Ok l, σ') ∧
  heap σ' !! l
    = Some (OPipeline (cloned_from p (VRef (length (heap σ))))).
Proof.
intros Hp Hc Hcl. unfold tpcp.clone.
rewrite (bind_eq _ _ _ _ _ (get_pipeline_eq _ _ _ Hp)).
rewrite Hc. unfold tpcp.deepcopy.
rewrite (bind_eq _ _ σ (VRef (length (heap σ)))
           (mkWorld (heap σ ++ [OClassifier cl]) (storage σ))).
2:{ by rewrite (bind_eq _ _ _ _ _ (get_classifier_eq _ _ _ Hcl)). }
unfold alloc. cbn [heap storage]. eexists _, _.
split; [reflexivity|]. cbn [heap]. apply lookup_snoc.
Qed.

Lemma set_params_run pipeline p kw σ :
heap σ !! pipeline = Some (OPipeline p) →
dom kw ⊆ tpcp.param_names →
tpcp.set_params pipeline kw σ =
  (Ok pipeline,
   mkWorld (<[pipeline := OPipeline (tpcp.update_params kw p)]> (heap σ))
     (storage σ)).
Proof.
intros Hp Hd. unfold tpcp.set_params.
rewrite (bind_eq _ _ _ _ _ (get_pipeline_eq _ _ _ Hp)).
by rewrite decide_True.
Qed.

Lemma hyperparameter_names_accepted :
hyperparameter_names ⊆ tpcp.param_names.
Proof. unfold hyperparameter_names, tpcp.param_names. set_solver. Qed.

(** When the dataset cannot be split in five, the objective of a new
  trial ends with the exception of the splitter. *)
Lemma objective_split_fails self dataset h key old σ ft template c cl e :
optuna.study_key (optuna.study h) = key →
optuna.trial_number h = length old →
logged key old ft σ →
params ft = ∅ →
heap σ !! XGBOptuna.pipeline self = Some (OPipeline template) →
classifier template = VRef c →
heap σ !! c = Some (OClassifier cl) →
kfold 5 dataset = Raise e →
(XGBOptuna.objective self dataset h σ).1 = Raise e.
Proof.
intros Hk Hn Hl He Hp Hc Hcl Hsplit.
destruct (paras_recorded h key old σ ft Hk Hn Hl He)
  as (paras & σp & ft' & Ep & (Hh & _) & _ & Hdom & _).
unfold XGBOptuna.objective. rewrite (bind_eq _ _ _ _ _ Ep).
rewrite <- Hh in Hp, Hcl.
destruct (clone_run _ _ _ _ _ Hp Hc Hcl) as (l & σ2 & E2 & Hl2).
rewrite (bind_eq _ _ _ _ _ E2).
rewrite (bind_eq _ _ _ _ _ (set_params_run _ _ paras _ Hl2
           ltac:(rewrite Hdom; apply hyperparameter_names_accepted))).
erewrite bind_raise; [reflexivity|].
unfold tpcp.cross_validate. apply bind_raise. unfold lift.
by rewrite Hsplit.
Qed.
End Split.

(** X10: the cross-validation of a trial always asks for five folds
    (line 129).  On a dataset the splitter cannot split in five, the
    trial fails with the exception of the splitter before anything is
    fitted, [XGBOptuna.optimize] raises that exception, and the log of
    the study has received one failed trial without a value. *)
Theorem unsplittable_dataset_fails_the_trial `{Collaborators}
    (self : XGBOptuna.t) (dataset : Dataset)
    (optimize_params : gmap string pyval) (σ : world)
    (template : XGBPipeline) (c : loc) (cl : XGBClassifier) (e : exn) :
  heap σ !! XGBOptuna.pipeline self = Some (OPipeline template) →
  classifier template = VRef c →
  heap σ !! c = Some (OClassifier cl) →
  kfold 5 dataset = Raise e →
  e ≠ TrialPruned →
  let key := study_identity get_db_path (XGBOptuna.modality self)
               (XGBOptuna.classification_type self) in
  let out := XGBOptuna.optimize self dataset optimize_params σ in
  out.1 = Raise e ∧
  ∃ t,
    trials_of key out.2 = trials_of key σ ++ [t] ∧
    state t = Fail ∧ value t = None.
Proof.
  intros Hp Hc Hcl Hsplit Hne key out. subst out.
  unfold XGBOptuna.optimize. cbv zeta.
  destruct (create_study_run optuna.maximize
              ("XGBoostOptuna" +:+ join "|" (XGBOptuna.modality self))
              (XGBOptuna.seed self)
              ("sqlite:////" +:+ get_db_path +:+ "/xgb_"
                 +:+ join "_" (XGBOptuna.modality self) +:+ "_"
                 +:+ XGBOptuna.classification_type self +:+ ".db")
              optuna.MedianPruner σ) as (σ1 & E1 & Hs1 & _).
  rewrite (bind_eq _ _ _ _ _ E1).
  apply create_study_Ok in E1 as (_ & Hh1 & _).
  set (s := optuna.mkStudy _ _ _ _) in *.
  change key with (optuna.study_key s) in *.
  set (old := trials_of (optuna.study_key s) σ) in *.
  change (storage σ1 !! optuna.study_key s = Some old) in Hs1.
  destruct (run_trial_record s self dataset σ1 old Hs1)
    as (t & Hl & _ & _ & Hout).
  assert ((optuna.run_trial s (XGBOptuna.objective self dataset) σ1).1
            = Raise e) as Hrt.
  { unfold optuna.run_trial.
    set (t0 := mkTrial (length old) Running None ∅).
    set (h := optuna.mkHandle s (length old)).
    set (σa := mkWorld (heap σ1)
                 (<[optuna.study_key s := old ++ [t0]]> (storage σ1))).
    assert (optuna.ask s σ1 = (Ok h, σa)) as Ea.
    { unfold optuna.ask, bind, get_trials, set_trials, ret.
      by rewrite Hs1. }
    rewrite (bind_eq _ _ _ _ _ Ea).
    assert (logged (optuna.study_key s) old t0 σa) as Hla
      by apply lookup_insert_eq.
    assert ((XGBOptuna.objective self dataset h σa).1 = Raise e) as Ho.
    { apply (objective_split_fails self dataset h _ old σa t0 template c cl
               e eq_refl eq_refl Hla eq_refl);
        [by rewrite <- Hh1 in Hp | exact Hc | by rewrite <- Hh1 in Hcl
        | exact Hsplit]. }
    assert (attempt (XGBOptuna.objective self dataset h) σa =
              (Ok (Raise e), (XGBOptuna.objective self dataset h σa).2))
      as Et by (unfold attempt; by rewrite Ho).
    rewrite (bind_eq _ _ _ _ _ Et).
    by destruct e. }
  destruct (optuna.run_trial s (XGBOptuna.objective self dataset) σ1)
    as [r σ2] eqn:Er.
  cbn [fst snd] in *. subst r.
  change (optuna.optimize s (XGBOptuna.objective self dataset) 1)
    with (bind (optuna.run_trial s (XGBOptuna.objective self dataset))
            (λ _, optuna.optimize s (XGBOptuna.objective self dataset) 0)).
  rewrite (bind_raise _ _ _ _ _ (bind_raise _ _ _ _ _ Er)).
  split; [reflexivity|]. exists t. cbn [snd].
  split; [unfold trials_of at 1; by rewrite Hl|].
  destruct Hout as [(_ & _ & ?)|[(_ & _ & ?)|(? & ? & _)]]; done.
Qed.

Lemma unsplittable_dataset_fails_the_trial_witness :
  (XGBOptuna.optimize (H:=Toy.collaborators) (Toy.searcher "binary")
     [0; 1; 0]%Z ∅ Toy.world0).1
    = Raise (ValueError "fewer subjects than folds").
Proof.
  destruct (unsplittable_dataset_fails_the_trial (H:=Toy.collaborators)
              (Toy.searcher "binary") [0; 1; 0]%Z ∅ Toy.world0
              Toy.pipeline0 0 Toy.classifier0
              (ValueError "fewer subjects than folds")
              eq_refl eq_refl eq_refl eq_refl ltac:(discriminate))
    as [Hr _].
  exact Hr.
Defined.

(** * The pipeline that is returned *)

Section Returned.
Context `{Collaborators}.

(** A dictionary that carries exactly the eight hyperparameter names and
  is contained in the hyperparameters of a pipeline is the dictionary
  of these hyperparameters. *)
Lemma hyperparameters_exact (pl : XGBPipeline) (best : gmap string pyval) :
(∀ k v, best !! k = Some v → k ≠ "classifier" →
   XGBPipeline.hyperparameters pl !! k = Some v) →
dom best = hyperparameter_names →
XGBPipeline.hyperparameters pl = best.
Proof.
intros Hincl Hdom. apply map_eq. intros k.
destruct (best !! k) as [v|] eqn:Ek.
- apply Hincl; [exact Ek|]. intros ->.
  assert ("classifier" ∈ hyperparameter_names) as Hin.
  { rewrite <- Hdom. apply elem_of_dom. by exists v. }
  revert Hin. apply (bool_decide_unpack _). vm_compute. exact I.
- apply not_elem_of_dom. rewrite hyperparameters_dom, <- Hdom.
  by apply not_elem_of_dom.
Qed.
End Returned.

(** C5: when [XGBOptuna.optimize] returns, [optimized_pipeline_] is a
    pipeline object created after the search phase has ended (so it is
    neither the template nor any fold-level pipeline), with the modality
    and classification type of the template; its hyperparameters are
    those of the template overwritten by the parameters of the best
    trial, so they are exactly the best trial's parameters when the best
    trial carries the eight hyperparameter names, as every trial does in
    a log whose earlier trials do.  Its classifier is likewise created
    after the search phase, carries these hyperparameters over what the
    constructor call gave, and its trained state is the result of one
    training run on the features and the target column of the whole
    input dataset.  The template is left as it was. *)
Theorem optimized_pipeline_is_refit_of_best `{Collaborators}
    (self self' : XGBOptuna.t) (dataset : Dataset)
    (optimize_params : gmap string pyval) (σ σ' : world)
    (template : XGBPipeline) :
  heap σ !! XGBOptuna.pipeline self = Some (OPipeline template) →
  XGBOptuna.optimize self dataset optimize_params σ = (Ok self', σ') →
  let key := study_identity get_db_path (XGBOptuna.modality self)
               (XGBOptuna.classification_type self) in
  ∃ σs best l pl c cl X gt y b,
    search_phase self dataset σ = (Ok tt, σs) ∧
    optuna.best_trial optuna.maximize (trials_of key σ') = Some best ∧
    XGBOptuna.optimized_pipeline_ self' = Some l ∧
    length (heap σs) ≤ l ∧
    heap σ' !! l = Some (OPipeline pl) ∧
    modality pl = modality template ∧
    classification_type pl = classification_type template ∧
    (∀ k v, params best !! k = Some v → k ≠ "classifier" →
       XGBPipeline.hyperparameters pl !! k = Some v) ∧
    classifier pl = VRef c ∧
    length (heap σs) ≤ c ∧
    heap σ' !! c = Some (OClassifier cl) ∧
    clf_booster cl = Some b ∧
    get_concat_dataset dataset (modality template) = Ok (X, gt) ∧
    gt !! target_column (classification_type template) = Some y ∧
    xgb_fit (clf_params cl) X y = Ok b ∧
    heap σ' !! XGBOptuna.pipeline self = Some (OPipeline template) ∧
    XGBPipeline.hyperparameters pl
      = XGBPipeline.hyperparameters
          (tpcp.update_params (params best) template) ∧
    (dom (params best) = hyperparameter_names →
       XGBPipeline.hyperparameters pl = params best) ∧
    ((∀ t, t ∈ trials_of key σ → dom (params t) = hyperparameter_names) →
       XGBPipeline.hyperparameters pl = params best) ∧
    clf_params cl
      = XGBPipeline.hyperparameters pl
        ∪ (constructor_params (XGBOptuna.classification_type self)
             (params best) ∪ xgb_defaults).
Proof.
  intros Hp E key.
  destruct (optimize_Ok _ _ _ _ _ _ _ Hp E)
    as (σs & bt & clf & l & pl & c & X & gt & y & b & Hs & Hclf & Hl & Hc
        & Hst & Hbt & Hdom & _ & _ & -> & _ & Hpl & Hm & Hct & Hhy & Hcl
        & _ & _ & Hlc & Hd & Hy & Hb & Hfr).
  assert (∀ k v, params bt !! k = Some v → k ≠ "classifier" →
            XGBPipeline.hyperparameters pl !! k = Some v) as Hincl.
  { intros k v Hk Hne. rewrite Hhy.
    apply hyperparameters_of_update; [exact Hk|].
    apply param_names_split; [|exact Hne].
    apply Hdom, elem_of_dom. by exists v. }
  exists σs, bt, l, pl, c,
    (mkClassifier
       (XGBPipeline.hyperparameters pl
        ∪ (constructor_params (XGBOptuna.classification_type self)
             (params bt) ∪ xgb_defaults))
       (Some b)), X, gt, y, b.
  split_and!.
  - exact Hs.
  - exact Hbt.
  - reflexivity.
  - exact Hl.
  - exact Hpl.
  - exact Hm.
  - exact Hct.
  - exact Hincl.
  - exact Hcl.
  - exact Hc.
  - exact Hlc.
  - reflexivity.
  - exact Hd.
  - exact Hy.
  - exact Hb.
  - rewrite Hfr; [exact Hp|]. by eapply lookup_lt_Some.
  - exact Hhy.
  - intros Height. by apply hyperparameters_exact.
  - intros Hlog. apply hyperparameters_exact; [exact Hincl|].
    destruct (optimize_record self dataset optimize_params σ)
      as (t & Hlt & Hdt & _).
    cbv zeta in Hlt. rewrite E in Hlt. cbn [snd] in Hlt.
    apply best_trial_Some in Hbt as [Hin _].
    subst key. rewrite Hlt in Hin.
    apply elem_of_app in Hin as [Hin|Hin].
    + by apply Hlog.
    + apply list_elem_of_singleton in Hin. by subst.
  - reflexivity.
Qed.

Lemma optimized_pipeline_is_refit_of_best_witness :
  ∃ best l pl c cl,
    optuna.best_trial optuna.maximize
      (trials_of (study_identity "/tmp/db" ["acc"; "hr"] "binary")
         Toy.world_searched) = Some best ∧
    XGBOptuna.optimized_pipeline_ Toy.searched = Some l ∧
    heap Toy.world_searched !! l = Some (OPipeline pl) ∧
    modality pl = ["acc"; "hr"] ∧
    XGBPipeline.hyperparameters pl = params best ∧
    classifier pl = VRef c ∧
    heap Toy.world_searched !! c = Some (OClassifier cl) ∧
    (∃ b, clf_booster cl = Some b ∧
          @xgb_fit Toy.collaborators (clf_params cl) Toy.dataset
            [0; 1; 0; 1; 0; 1; 0]%Z = Ok b).
Proof.
  destruct (optimized_pipeline_is_refit_of_best (H:=Toy.collaborators)
              (Toy.searcher "binary") Toy.searched Toy.dataset ∅
              Toy.world0 Toy.world_searched Toy.pipeline0 eq_refl)
    as (σs & best & l & pl & c & cl & X & gt & y & b & _ & Hbest & Hl & _
        & Hpl & Hm & _ & _ & Hc & _ & Hcl & Hb & Hd & Hy & Hfit & _ & _ & _
        & Heq & _).
  { unfold Toy.world_searched. apply outcome_Ok. vm_compute. reflexivity. }
  exists best, l, pl, c, cl. split_and!; try assumption.
  - apply Heq. intros t Ht.
    assert (trials_of (study_identity "/tmp/db" ["acc"; "hr"] "binary")
              Toy.world0 = []) as Hnil by (vm_compute; reflexivity).
    change (t ∈ trials_of (study_identity "/tmp/db" ["acc"; "hr"] "binary")
                  Toy.world0) in Ht.
    rewrite Hnil in Ht. destruct (proj1 (elem_of_nil t) Ht).
  - exists b. split; [assumption|].
    injection Hd as <- <-. injection Hy as <-. exact Hfit.
Defined.



